(** * local_translator: the translation dispatcher and the engine catalogue

    A shallow embedding of [translator.py].  Python strings are sequences of
    Unicode code points; the module-level catalogue [MODEL_DICT], the
    Streamlit session value and the outside world (remote inference
    services, files, process environment) are threaded through a state and
    exception monad.  A chronological trace of the externally visible
    actions (file opens, catalogue subscripts, client constructions,
    network calls, widgets drawn) is kept alongside, so that statements such
    as "no network call is made" can be written down. *)

From Stdlib Require Import List NArith String Ascii Bool Arith Lia.
Import ListNotations.

Set Implicit Arguments.

(** ** Python strings *)

(** A [str] is a sequence of code points. *)
Definition str : Type := list N.

(** A source literal (all the literals of the dispatcher are ASCII). *)
Definition lit (s : string) : str := map N_of_ascii (list_ascii_of_string s).

(** [a == b] on strings. *)
Fixpoint str_eqb (a b : str) : bool :=
  match a, b with
  | [], [] => true
  | x :: a', y :: b' => N.eqb x y && str_eqb a' b'
  | _, _ => false
  end.

(** [str.isspace] on one code point: the characters that [str.strip()]
    removes (CPython's [_PyUnicode_IsWhitespace]). *)
Definition isspace (c : N) : bool :=
  (((9 <=? c) && (c <=? 13)) || ((28 <=? c) && (c <=? 32))
   || (c =? 133) || (c =? 160) || (c =? 5760)
   || ((8192 <=? c) && (c <=? 8202))
   || (c =? 8232) || (c =? 8233) || (c =? 8239) || (c =? 8287)
   || (c =? 12288))%N.

Fixpoint lstrip (s : str) : str :=
  match s with
  | [] => []
  | c :: s' => if isspace c then lstrip s' else s
  end.

Definition rstrip (s : str) : str := rev (lstrip (rev s)).

(** [s.strip()] *)
Definition strip (s : str) : str := rstrip (lstrip s).

(** Truth value of a string: [bool(s)]. *)
Definition truthy (s : str) : bool :=
  match s with [] => false | _ :: _ => true end.

(** [s.split(sep)] for a one-character separator: [cur] holds, reversed,
    the characters of the piece being read. *)
Fixpoint split_from (sep : N) (cur : str) (s : str) : list str :=
  match s with
  | [] => [rev cur]
  | c :: s' =>
      if N.eqb c sep then rev cur :: split_from sep [] s'
      else split_from sep (c :: cur) s'
  end.

Definition split (sep : N) (s : str) : list str := split_from sep [] s.

(** The code point of ["/"]. *)
Definition slash : N := 47%N.

(** The code point of the double quote. *)
Definition dquote : N := 34%N.

(** ** Exceptions *)

(** The classes of the exceptions that occur.  Every inhabitant stands for
    an instance of Python's [Exception]: what a subscript, an attribute
    access, a file open, the YAML loader and the two client libraries
    raise. *)
Inductive ExcClass : Type :=
| KeyError
| IndexError
| NameError
| AttributeError
| TypeError
| FileNotFoundError
| LibraryError (name : string).

(** [issubclass(c, LookupError)] *)
Definition is_LookupError (c : ExcClass) : bool :=
  match c with
  | KeyError | IndexError => true
  | _ => false
  end.

(** An exception instance: its class and what [str(e)] yields. *)
Record exn : Type := mkExn { exc_class : ExcClass; exc_str : str }.

Inductive res (A : Type) : Type :=
| Ok (a : A)
| Raise (e : exn).
Arguments Ok {A} a.
Arguments Raise {A} e.


(** ** Python values

    A value as far as the program can tell values apart: [None], a string,
    a list, a dictionary, or an object of some other type (a number, a
    truth value, a date, ...) known by the name of its type. *)
#[local] Set Warnings "-register-all".
Inductive pyval : Type :=
| PyNone
| PyStr (s : str)
| PyOther (type_name : str)
| PyList (items : list pyval)
| PyDict (entries : list (pyval * pyval)).

(** [type(v).__name__] *)
Definition type_name (v : pyval) : str :=
  match v with
  | PyNone => lit "NoneType"
  | PyStr _ => lit "str"
  | PyOther name => name
  | PyList _ => lit "list"
  | PyDict _ => lit "dict"
  end.

(** The entry of a dictionary under a string key: a key that is not a
    string is never equal to one. *)
Fixpoint entry_get (entries : list (pyval * pyval)) (k : str) : option pyval :=
  match entries with
  | [] => None
  | (PyStr k', v) :: rest => if str_eqb k' k then Some v else entry_get rest k
  | _ :: rest => entry_get rest k
  end.

(** What [v[k]] raises, for a string [k], when [v] is not a dictionary. *)
Definition subscript_error (v : pyval) : exn :=
  mkExn TypeError
    match v with
    | PyStr _ => lit "string indices must be integers, not 'str'"
    | PyList _ => lit "list indices must be integers or slices, not str"
    | _ => lit "'" ++ type_name v ++ lit "' object is not subscriptable"
    end.

(** [list(v.keys())] *)
Definition py_keys (v : pyval) : res (list pyval) :=
  match v with
  | PyDict entries => Ok (map fst entries)
  | _ => Raise (mkExn AttributeError
                  (lit "'" ++ type_name v ++ lit "' object has no attribute 'keys'"))
  end.

(** ** Python dictionaries with string keys

    Insertion-ordered: assigning to a key that is present keeps its
    position, a new key goes to the end. *)
Definition pymap (V : Type) : Type := list (str * V).

(** A dictionary from strings to strings, the type [MODEL_DICT] is
    annotated with. *)
Definition pydict : Type := pymap str.

Fixpoint dict_get (V : Type) (d : pymap V) (k : str) : option V :=
  match d with
  | [] => None
  | (k', v) :: d' => if str_eqb k' k then Some v else dict_get d' k
  end.

(** [d[k] = v] *)
Fixpoint dict_set (V : Type) (d : pymap V) (k : str) (v : V) : pymap V :=
  match d with
  | [] => [(k, v)]
  | (k', v') :: d' =>
      if str_eqb k' k then (k', v) :: d' else (k', v') :: dict_set d' k v
  end.

(** [list(d.keys())] *)
Definition dict_keys (V : Type) (d : pymap V) : list str := map fst d.

(** [d.get(k, default)] *)
Definition dict_get_default (V : Type) (d : pymap V) (k : str) (default : V) : V :=
  match dict_get d k with Some v => v | None => default end.

(** A dictionary from strings to strings as a Python value. *)
Definition catalog (d : pydict) : pyval :=
  PyDict (map (fun kv => (PyStr (fst kv), PyStr (snd kv))) d).

(** ** Requests and responses of the two backends *)

Record Message : Type := mkMessage { role : str; content : str }.

(** The keyword arguments [model=..., messages=[...]] of both chat calls. *)
Record ChatRequest : Type := mkChatRequest { model : pyval; messages : list Message }.

(** The client object built by [OpenAI()]. *)
Record OpenAIClient : Type := mkClient { api_key : option str }.

Module OpenAI.
(** The content of a message is a string or [None]. *)
Record ChatCompletionMessage : Type := mkMsg { content : pyval }.
Record Choice : Type := mkChoice { message : ChatCompletionMessage }.
Record ChatCompletion : Type := mkCompletion { choices : list Choice }.
End OpenAI.

Module Ollama.
(** A response is subscripted by key: a key that is not there raises
    [KeyError]; the content that is there is a string or [None]. *)
Record ResponseMessage : Type := mkMsg { content : option pyval }.
Record ChatResponse : Type := mkResponse { message : option ResponseMessage }.
End Ollama.

(** ** Trace of visible actions *)

(** Where a widget is drawn. *)
Inductive Container : Type :=
| Page
| Column (i : nat)
| Expander (label : str).

Inductive Event : Type :=
| EvOpen (path : str)
| EvSubscript (key : str)               (* MODEL_DICT[key] *)
| EvOpenAIClient                        (* OpenAI() *)
| EvOpenAIChat (req : ChatRequest)      (* client.chat.completions.create *)
| EvOllamaChat (req : ChatRequest)      (* ollama.chat *)
| EvPageConfig (layout : str)           (* st.set_page_config *)
| EvSelect (at_ : Container) (label : str) (options : list pyval)
                                        (* st.selectbox, st.multiselect *)
| EvRadio (at_ : Container) (label : str) (options : list str)
| EvButton (at_ : Container) (label : str)
| EvSubheader (at_ : Container) (body : str)
| EvTextInput (at_ : Container) (key placeholder : str)
                                        (* the st.text_area that is typed into *)
| EvTextArea (at_ : Container) (key : str) (value : pyval)
                                        (* st.text_area(label, value, key=key) *)
| EvMarkdown (at_ : Container) (body : str)
| EvWrite (at_ : Container) (body : str)
| EvWarning (body : str).

(** [x[0]] on a list. *)
Definition index0 {A : Type} (l : list A) : res A :=
  match l with
  | [] => Raise (mkExn IndexError (lit "list index out of range"))
  | x :: _ => Ok x
  end.

(** The fixed strings of the dispatcher. *)
Definition MSG_ENTER_TEXT : str := lit "Please enter or paste the text to be translated.".
Definition MSG_NO_ENGINE : str := lit "No translation engine selected.".
Definition MSG_ERROR_PREFIX : str := lit "Error occurred during translation: ".

Definition SYSTEM_INSTRUCTION : str :=
  lit "You are a helpful translator. "
  ++ lit "However, only the translation result should be output. "
  ++ lit "Code blocks or phrases like " ++ [dquote]
  ++ lit "Here is the translation result:" ++ [dquote] ++ lit " "
  ++ lit "should not be included. ".

(** Lines 70-88: the arguments of the chat-completion call. *)
Definition openai_request (model_id : pyval) (text target_lang : str) : ChatRequest :=
  mkChatRequest model_id
    [ mkMessage (lit "system")
        (SYSTEM_INSTRUCTION ++ lit "Please translate into " ++ target_lang ++ lit ".");
      mkMessage (lit "user") text ].

(** Lines 94-108: the prompt and the arguments of the Ollama chat call. *)
Definition ollama_request (model_id : pyval) (text target_lang : str) : ChatRequest :=
  let prompt :=
    SYSTEM_INSTRUCTION
    ++ lit "Please translate into " ++ target_lang ++ lit "." ++ [10%N; 10%N]
    ++ lit "Source Sentence: " ++ text ++ [10%N]
    ++ lit "Target Sentence: " in
  mkChatRequest model_id [ mkMessage (lit "user") prompt ].

(** One line of a text that runs over several lines. *)
Definition line (s : string) : str := lit s ++ [10%N].

(** Lines 138-155: the style sheet handed to [st.markdown]. *)
Definition PAGE_STYLE : str :=
  [10%N]
  ++ line "        <style>"
  ++ line "        /* Increase font size for text areas */"
  ++ lit "        div[data-testid=" ++ [dquote] ++ lit "stTextArea" ++ [dquote]
  ++ line "] textarea {"
  ++ line "            font-size: 20px;"
  ++ line "            width: 100% !important;"
  ++ line "            max-width: 100% !important;"
  ++ line "        }"
  ++ lit "        div[data-testid=" ++ [dquote] ++ lit "stTextArea" ++ [dquote]
  ++ line "] textarea::placeholder {"
  ++ line "            font-size: 20px;"
  ++ line "            color: #999999;"
  ++ line "        }"
  ++ line "        /* Increase padding for buttons */"
  ++ line "        div.stButton > button {"
  ++ line "            padding: 0.2rem 1.8rem;"
  ++ line "        }"
  ++ line "        </style>"
  ++ lit "        ".

(** ** The outside world *)

(** What the program calls but does not define: the process environment,
    the two client libraries, [repr], the file system and the YAML loader.
    [W] is the state of everything outside the process; a call may change
    it and may raise.  The loader hands back whatever value the document
    stands for: a mapping, but also [None] for an empty file, a list or a
    scalar. *)
Record Env (W : Type) : Type := mkEnv {
  os_getenv : W -> str -> option str;
  OpenAI_new : W -> W * res OpenAIClient;
  chat_completions_create :
    OpenAIClient -> ChatRequest -> W -> W * res OpenAI.ChatCompletion;
  ollama_chat : ChatRequest -> W -> W * res Ollama.ChatResponse;
  py_repr : str -> str;
  fs_open : str -> W -> W * res (list N);
  yaml_safe_load : list N -> W -> W * res pyval
}.

(** The state of a run: the world, the module global [MODEL_DICT] (unbound
    until the load statement has run), [st.session_state] and the trace. *)
Record State (W : Type) : Type := mkState {
  world : W;
  MODEL_DICT : option pyval;
  session_state : pymap pyval;
  trace : list Event
}.

(** What the widgets of one run of the page hand back, for a catalogue
    whose labels are strings. *)
Record UI : Type := mkUI {
  ui_engine : option str;          (* st.selectbox: None when there are no options *)
  ui_tgt_lang : str;
  ui_source_text : str;
  ui_run : bool;                   (* st.button("Run Translation") *)
  ui_compare_engines : list str;   (* st.multiselect *)
  ui_layout_option : str;          (* st.radio *)
  ui_compare : bool                (* st.button("Compare") *)
}.

Definition CONFIG_PATH : str := lit "configs/avail_models.yaml".

Definition available_languages : list str :=
  [ lit "Japanese"; lit "English (United States)"; lit "Spanish"; lit "Slovak";
    lit "Slovenian"; lit "Czech"; lit "Danish"; lit "German"; lit "Turkish";
    lit "Norwegian (Bokm" ++ [229%N] ++ lit "l)"; lit "Hungarian";
    lit "Finnish"; lit "French"; lit "Bulgarian"; lit "Polish";
    lit "Portuguese"; lit "Portuguese (Brazil)"; lit "Latvian";
    lit "Lithuanian"; lit "Romanian"; lit "Russian";
    lit "English (United Kingdom)"; lit "Korean"; lit "Chinese (Simplified)";
    lit "Chinese (Traditional)"; lit "Arabic"; lit "Italian";
    lit "Indonesian"; lit "Ukrainian"; lit "Estonian"; lit "Dutch";
    lit "Greek"; lit "Swedish" ].

Section Model.

Variable W : Type.
Variable env : Env W.

(** *** The monad: state and exceptions *)

Definition M (A : Type) : Type := State W -> State W * res A.

Definition ret {A : Type} (a : A) : M A := fun s => (s, Ok a).

Definition raise {A : Type} (e : exn) : M A := fun s => (s, Raise e).

Definition bind {A B : Type} (m : M A) (k : A -> M B) : M B :=
  fun s =>
    match m s with
    | (s', Ok a) => k a s'
    | (s', Raise e) => (s', Raise e)
    end.

(** [try: m  except Exception as e: h e] *)
Definition try_except {A : Type} (m : M A) (h : exn -> M A) : M A :=
  fun s =>
    match m s with
    | (s', Ok a) => (s', Ok a)
    | (s', Raise e) => h e s'
    end.

Definition lift {A : Type} (r : res A) : M A := fun s => (s, r).

(** The state with [evs] added at the end of the trace. *)
Definition add_trace (s : State W) (evs : list Event) : State W :=
  mkState (world s) (MODEL_DICT s) (session_state s) (trace s ++ evs).

(** Record that something visible happened. *)
Definition emit (ev : Event) : M unit :=
  fun s => (add_trace s [ev], Ok tt).

(** A call into the outside world. *)
Definition call {A : Type} (f : W -> W * res A) : M A :=
  fun s =>
    let (w', r) := f (world s) in
    (mkState w' (MODEL_DICT s) (session_state s) (trace s), r).

(** Reading the process environment. *)
Definition getenv (name : str) : M (option str) :=
  fun s => (s, Ok (os_getenv env (world s) name)).

(** Evaluating the global name [MODEL_DICT]. *)
Definition read_MODEL_DICT : M pyval :=
  fun s =>
    match MODEL_DICT s with
    | Some d => (s, Ok d)
    | None => (s, Raise (mkExn NameError (lit "name 'MODEL_DICT' is not defined")))
    end.

(** Binding the global name [MODEL_DICT]. *)
Definition bind_MODEL_DICT (d : pyval) : M unit :=
  fun s => (mkState (world s) (Some d) (session_state s) (trace s), Ok tt).

(** [st.session_state[k] = v] *)
Definition session_set (k : str) (v : pyval) : M unit :=
  fun s => (mkState (world s) (MODEL_DICT s) (dict_set (session_state s) k v) (trace s), Ok tt).

(** [st.session_state.get(k, default)] *)
Definition session_get (k : str) (default : pyval) : M pyval :=
  fun s => (s, Ok (dict_get_default (session_state s) k default)).

End Model.

Arguments ret {W A} a.
Arguments raise {W A} e.
Arguments lift {W A} r.
Arguments add_trace {W} s evs.
Arguments emit {W} ev.
Arguments call {W A} f.
Arguments read_MODEL_DICT {W}.
Arguments bind_MODEL_DICT {W} d.
Arguments session_set {W} k v.
Arguments session_get {W} k default.

Notation "x <- m ;; k" := (bind m (fun x => k))
  (at level 61, m at next level, right associativity).
Notation "m ;; k" := (bind m (fun _ => k))
  (at level 61, right associativity).

(** ** The program *)

Section Program.

Variable W : Type.
Variable env : Env W.

(** Lines 29-30: the load statement at module level. *)
Definition load_MODEL_DICT : M W unit :=
  emit (EvOpen CONFIG_PATH) ;;
  f <- call (fs_open env CONFIG_PATH) ;;
  d <- call (yaml_safe_load env f) ;;
  bind_MODEL_DICT d.

(** [MODEL_DICT[engine]] *)
Definition MODEL_DICT_getitem (engine : str) : M W pyval :=
  d <- read_MODEL_DICT ;;
  emit (EvSubscript engine) ;;
  match d with
  | PyDict entries =>
      match entry_get entries engine with
      | Some model_id => ret model_id
      | None => raise (mkExn KeyError (py_repr env engine))
      end
  | _ => raise (subscript_error d)
  end.

(** Lines 64-89: the OpenAI arm. *)
Definition openai_translation (text engine target_lang : str) : M W pyval :=
  emit EvOpenAIClient ;;
  client <- call (OpenAI_new env) ;;
  key <- getenv env (lit "OPENAI_API_KEY") ;;
  let client := mkClient key in
  model_id <- MODEL_DICT_getitem engine ;;
  let request := openai_request model_id text target_lang in
  emit (EvOpenAIChat request) ;;
  completion <- call (chat_completions_create env client request) ;;
  choice <- lift (index0 (OpenAI.choices completion)) ;;
  ret (OpenAI.content (OpenAI.message choice)).

(** Lines 92-109: the Ollama arm. *)
Definition ollama_translation (text engine target_lang : str) : M W pyval :=
  model_id <- MODEL_DICT_getitem engine ;;
  let request := ollama_request model_id text target_lang in
  emit (EvOllamaChat request) ;;
  response <- call (ollama_chat env request) ;;
  match Ollama.message response with
  | None => raise (mkExn KeyError (py_repr env (lit "message")))
  | Some m =>
      match Ollama.content m with
      | None => raise (mkExn KeyError (py_repr env (lit "content")))
      | Some c => ret c
      end
  end.

(** Lines 63-114: the body of the [try] block, for a given [main_engine]. *)
Definition dispatch (main_engine text engine target_lang : str) : M W pyval :=
  translation <-
    (if str_eqb main_engine (lit "OpenAI") then
       openai_translation text engine target_lang
     else if str_eqb main_engine (lit "Ollama") then
       ollama_translation text engine target_lang
     else ret (PyStr MSG_NO_ENGINE)) ;;
  ret translation.

(** Lines 33-118.  What comes back is a string, or [None] when that is the
    content of the backend's message. *)
Definition translate_text (text engine target_lang : str) : M W pyval :=
  if negb (truthy (strip text)) then ret (PyStr MSG_ENTER_TEXT)
  else
    main_engine <- lift (index0 (split slash engine)) ;;
    try_except
      (dispatch main_engine text engine target_lang)
      (fun e => ret (PyStr (MSG_ERROR_PREFIX ++ exc_str e))).

(** The call of line 189, where the engine argument is what the select
    box returned: with [None] for it, [engine.split] raises
    [AttributeError] once the text has passed the first test. *)
Definition translate_text_arg (text : str) (engine : option str) (target_lang : str)
  : M W pyval :=
  match engine with
  | Some e => translate_text text e target_lang
  | None =>
      if negb (truthy (strip text)) then ret (PyStr MSG_ENTER_TEXT)
      else raise (mkExn AttributeError
                    (lit "'NoneType' object has no attribute 'split'"))
  end.

(** Lines 216-218: the loop filling [compare_results]. *)
Fixpoint compare_loop (text tgt_lang : str) (compare_engines : list str)
    (compare_results : pymap pyval) : M W (pymap pyval) :=
  match compare_engines with
  | [] => ret compare_results
  | e :: rest =>
      r <- translate_text text e tgt_lang ;;
      compare_loop text tgt_lang rest (dict_set compare_results e r)
  end.

(** [f"**{eng_name}**"] *)
Definition bold (eng_name : str) : str := lit "**" ++ eng_name ++ lit "**".

(** Lines 222-225: one expander per entry. *)
Fixpoint show_vertical (items : list (str * pyval)) : M W unit :=
  match items with
  | [] => ret tt
  | (eng_name, result) :: rest =>
      emit (EvTextArea (Expander (bold eng_name)) (lit "compare_" ++ eng_name) result) ;;
      emit (EvWrite (Expander (bold eng_name)) []) ;;
      show_vertical rest
  end.

(** Lines 232-235: one column per entry. *)
Fixpoint show_columns (pairs : list ((str * pyval) * nat)) : M W unit :=
  match pairs with
  | [] => ret tt
  | ((eng_name, result), col) :: rest =>
      emit (EvMarkdown (Column col) (bold eng_name)) ;;
      emit (EvTextArea (Column col) (lit "compare_" ++ eng_name) result) ;;
      show_columns rest
  end.

(** Lines 220-235. *)
Definition show_comparison (layout_option : str) (compare_results : pymap pyval)
  : M W unit :=
  if str_eqb layout_option (lit "Vertical") then show_vertical compare_results
  else if Nat.eqb (List.length compare_results) 0 then
    emit (EvWarning (lit "No engines selected for comparison."))
  else
    let cols := seq 0 (List.length compare_results) in
    show_columns (combine compare_results cols).

(** Lines 215-235: what pressing "Compare" does. *)
Definition compare (text tgt_lang : str) (compare_engines : list str)
    (layout_option : str) : M W unit :=
  compare_results <- compare_loop text tgt_lang compare_engines [] ;;
  show_comparison layout_option compare_results.

(** Lines 121-235.  Every [st] call is recorded in the order it is made;
    [st.columns] only allots the containers that the events name. *)
Definition main (ui : UI) : M W unit :=
  emit (EvPageConfig (lit "wide")) ;;
  emit (EvMarkdown Page PAGE_STYLE) ;;
  d <- read_MODEL_DICT ;;
  available_engines <- lift (py_keys d) ;;
  emit (EvSelect (Column 0) (lit "**Translation Engine**") available_engines) ;;
  emit (EvSelect (Column 1) (lit "**Target Language**") (map PyStr available_languages)) ;;
  let engine := ui_engine ui in
  let tgt_lang := ui_tgt_lang ui in
  emit (EvSubheader (Column 0) (lit "Input Source Text")) ;;
  emit (EvTextInput (Column 0) (lit "source_text")
          (lit "Please enter or paste the text to be translated")) ;;
  let text_to_translate := ui_source_text ui in
  emit (EvButton (Column 0) (lit "Run Translation")) ;;
  (if ui_run ui then
     r <- translate_text_arg text_to_translate engine tgt_lang ;;
     session_set (lit "translation") r
   else ret tt) ;;
  emit (EvSubheader (Column 1) (lit "Translation Result")) ;;
  translation <- session_get (lit "translation") (PyStr []) ;;
  emit (EvTextArea (Column 1) (lit "translated_text") translation) ;;
  emit (EvMarkdown Page (lit "---")) ;;
  emit (EvSubheader Page (lit "Compare Translations with Multiple Engines")) ;;
  emit (EvSelect Page (lit "**Select multiple engines to compare**") available_engines) ;;
  emit (EvRadio Page (lit "**Comparison Layout**") [lit "Horizontal"; lit "Vertical"]) ;;
  emit (EvButton Page (lit "Compare")) ;;
  if ui_compare ui then
    compare text_to_translate tgt_lang (ui_compare_engines ui) (ui_layout_option ui)
  else ret tt.

(** The script from top to bottom: the load statement, then [main()]. *)
Definition script (ui : UI) : M W unit :=
  load_MODEL_DICT ;;
  main ui.

(** One more run of the script in the same process, as Streamlit makes on
    every interaction with the page: the file is executed again from the
    top, with its globals unbound; the session state, the outside world
    and what has been seen so far carry over. *)
Definition rerun (ui : UI) : M W unit :=
  fun s => script ui (mkState (world s) None (session_state s) (trace s)).

End Program.

(** ** Stub backends

    Concrete outside worlds, used to run the program.  The world is the
    number of network calls made so far. *)

Definition stub_completion (x : str) : OpenAI.ChatCompletion :=
  OpenAI.mkCompletion [OpenAI.mkChoice (OpenAI.mkMsg (PyStr x))].

Definition stub_response (y : str) : Ollama.ChatResponse :=
  Ollama.mkResponse (Some (Ollama.mkMsg (Some (PyStr y)))).

(** A completion and a response whose message has a null content. *)
Definition null_completion : OpenAI.ChatCompletion :=
  OpenAI.mkCompletion [OpenAI.mkChoice (OpenAI.mkMsg PyNone)].

Definition null_response : Ollama.ChatResponse :=
  Ollama.mkResponse (Some (Ollama.mkMsg (Some PyNone))).

(** [repr] of a string that holds no quote, backslash or unprintable
    character: the string between single quotes. *)
Definition quoted (s : str) : str := lit "'" ++ s ++ lit "'".

Definition stub_env
    (openai : ChatRequest -> nat -> res OpenAI.ChatCompletion)
    (ollama : ChatRequest -> nat -> res Ollama.ChatResponse)
    (file : res (list N)) (parsed : res pyval) : Env nat :=
  {| os_getenv := fun _ _ => None;
     OpenAI_new := fun w => (w, Ok (mkClient None));
     chat_completions_create := fun _ req w => (S w, openai req w);
     ollama_chat := fun req w => (S w, ollama req w);
     py_repr := quoted;
     fs_open := fun _ w => (w, file);
     yaml_safe_load := fun _ w => (w, parsed) |}.

Definition stub_catalog : pydict :=
  [ (lit "OpenAI/GPT-4o", lit "gpt-4o");
    (lit "Ollama/gemma-3-4b-it-gguf", lit "gemma3:4b");
    (lit "Unknown/Whatever", lit "whatever") ].

(** Backends answering ["X"] and ["Y"]. *)
Definition xy_env : Env nat :=
  stub_env (fun _ _ => Ok (stub_completion (lit "X")))
           (fun _ _ => Ok (stub_response (lit "Y")))
           (Ok []) (Ok (catalog stub_catalog)).

(** What a model identifier reads as in an answer of [echo_env]. *)
Definition shown (v : pyval) : str :=
  match v with PyStr s => s | _ => type_name v end.

(** Backends answering with the model identifier they were asked for and
    the number of calls made before this one. *)
Definition echo_env : Env nat :=
  stub_env (fun req w => Ok (stub_completion (shown (model req) ++ lit "#" ++ [N.of_nat (48 + w)])))
           (fun req w => Ok (stub_response (shown (model req) ++ lit "#" ++ [N.of_nat (48 + w)])))
           (Ok []) (Ok (catalog stub_catalog)).

Definition connection_error : exn :=
  mkExn (LibraryError "APIConnectionError") (lit "Connection error.").

(** Backends that cannot be reached. *)
Definition down_env : Env nat :=
  stub_env (fun _ _ => Raise connection_error) (fun _ _ => Raise connection_error)
           (Ok []) (Ok (catalog stub_catalog)).

(** Backends whose message has a null content. *)
Definition null_env : Env nat :=
  stub_env (fun _ _ => Ok null_completion) (fun _ _ => Ok null_response)
           (Ok []) (Ok (catalog stub_catalog)).

(** No configuration file. *)
Definition nofile_env : Env nat :=
  stub_env (fun _ _ => Raise connection_error) (fun _ _ => Raise connection_error)
           (Raise (mkExn FileNotFoundError
                     (lit "[Errno 2] No such file or directory: 'configs/avail_models.yaml'")))
           (Ok (catalog stub_catalog)).

(** A configuration file that the YAML loader rejects. *)
Definition badyaml_env : Env nat :=
  stub_env (fun _ _ => Raise connection_error) (fun _ _ => Raise connection_error)
           (Ok (lit "a: ["))
           (Raise (mkExn (LibraryError "ParserError") (lit "while parsing a flow node"))).

(** An empty configuration file: the loader hands back [None]. *)
Definition emptyfile_env : Env nat :=
  stub_env (fun _ _ => Raise connection_error) (fun _ _ => Raise connection_error)
           (Ok []) (Ok PyNone).

(** A configuration file holding a list of two labels, not a mapping. *)
Definition listfile_env : Env nat :=
  stub_env (fun _ _ => Raise connection_error) (fun _ _ => Raise connection_error)
           (Ok (lit "- OpenAI/GPT-4o" ++ [10%N] ++ lit "- Ollama/gemma"))
           (Ok (PyList [PyStr (lit "OpenAI/GPT-4o"); PyStr (lit "Ollama/gemma")])).

Definition other_catalog : pydict := [ (lit "Ollama/llama3", lit "llama3:8b") ].

(** A configuration file that is edited while the page is in use: the
    world is the number of times the file has been opened; the first open
    reads the three entries of [stub_catalog], later ones the one entry of
    [other_catalog]. *)
Definition edited_env : Env nat :=
  {| os_getenv := fun _ _ => None;
     OpenAI_new := fun w => (w, Ok (mkClient None));
     chat_completions_create := fun _ _ w => (w, Raise connection_error);
     ollama_chat := fun _ w => (w, Raise connection_error);
     py_repr := quoted;
     fs_open := fun _ w => (S w, Ok (if Nat.eqb w 0 then lit "three" else lit "one"));
     yaml_safe_load := fun f w =>
       (w, Ok (catalog (if str_eqb f (lit "three") then stub_catalog
                         else other_catalog))) |}.

(** The state at process start, and the state once the catalogue [d] is
    loaded. *)
Definition initial_state {W : Type} (w : W) : State W := mkState w None [] [].

Definition loaded_state {W : Type} (w : W) (d : pydict) : State W :=
  mkState w (Some (catalog d)) [] [].

(** A page where both buttons are pressed and the three engines of
    [stub_catalog] are compared side by side. *)
Definition stub_ui : UI :=
  mkUI (Some (lit "OpenAI/GPT-4o")) (lit "Japanese") (lit "hi") true
       [ lit "OpenAI/GPT-4o"; lit "Ollama/gemma-3-4b-it-gguf"; lit "Unknown/Whatever" ]
       (lit "Horizontal") true.

(** A page where no button is pressed. *)
Definition idle_ui : UI :=
  mkUI (Some (lit "OpenAI/GPT-4o")) (lit "Japanese") (lit "hi") false []
       (lit "Vertical") false.

(** A page drawn for an empty catalogue: the select box has nothing to
    hand back, and "Run Translation" is pressed. *)
Definition no_engine_ui : UI :=
  mkUI None (lit "Japanese") (lit "hi") true [] (lit "Horizontal") false.

(** A later run of the page: the session holds an earlier translation. *)
Definition revisited_state : State nat :=
  mkState 1 (Some (catalog stub_catalog))
    [(lit "translation", PyStr (lit "earlier"))] [].

(** Tab, line feed, space and ideographic space. *)
Definition some_whitespace : str := [9%N; 10%N; 32%N; 12288%N].

(** ** The specification's vocabulary *)

(** The substring of [label] before its first [sep]; the whole label when
    [sep] does not occur. *)
Fixpoint before_first (sep : N) (label : str) : str :=
  match label with
  | [] => []
  | c :: rest => if N.eqb c sep then [] else c :: before_first sep rest
  end.

(** Empty or made of whitespace only. *)
Definition blank (text : str) : Prop := forallb isspace text = true.

(** [s] starts with [p]. *)
Definition starts_with (p s : str) : Prop := exists rest, s = p ++ rest.

(** Each engine of [engines] paired with what [translate_text] returns for
    it, the calls being made one after the other from state [s]; with the
    state reached at the end. *)
Fixpoint results_of {W : Type} (env : Env W) (text tgt_lang : str)
    (engines : list str) (s : State W) : list (str * pyval) * State W :=
  match engines with
  | [] => ([], s)
  | e :: rest =>
      match translate_text env text e tgt_lang s with
      | (s1, Ok r) =>
          let (l, s2) := results_of env text tgt_lang rest s1 in ((e, r) :: l, s2)
      | (s1, Raise _) => ([], s1)
      end
  end.

(** The name of an engine as the comparison is to show it: between two
    pairs of asterisks. *)
Definition engine_label (e : str) : str := [42%N; 42%N] ++ e ++ [42%N; 42%N].

(** What the vertical and the horizontal layout are to draw for one entry:
    the result in a text area, under the label of its engine. *)
Definition drawn_vertical (item : str * pyval) : list Event :=
  [ EvTextArea (Expander (engine_label (fst item))) (lit "compare_" ++ fst item)
      (snd item);
    EvWrite (Expander (engine_label (fst item))) [] ].

Definition drawn_column (p : (str * pyval) * nat) : list Event :=
  [ EvMarkdown (Column (snd p)) (engine_label (fst (fst p)));
    EvTextArea (Column (snd p)) (lit "compare_" ++ fst (fst p)) (snd (fst p)) ].

Definition is_open (ev : Event) : bool :=
  match ev with EvOpen _ => true | _ => false end.

(** How many times a stretch of the trace opens a file. *)
Definition opens (evs : list Event) : nat := List.length (filter is_open evs).

(** An action that leaves the catalogue alone and opens no file. *)
Definition quiet {W A : Type} (m : M W A) : Prop :=
  forall s s' r, m s = (s', r) ->
    MODEL_DICT s' = MODEL_DICT s /\
    exists evs, trace s' = trace s ++ evs /\ existsb is_open evs = false.

(** A request sent to one of the two backends. *)
Definition is_chat (ev : Event) : bool :=
  match ev with
  | EvOpenAIChat _ | EvOllamaChat _ => true
  | _ => false
  end.

(** How many requests a stretch of the trace holds. *)
Definition chats (evs : list Event) : nat := List.length (filter is_chat evs).

(** An action that leaves [st.session_state] alone and sends at most [n]
    requests. *)
Definition calm {W A : Type} (n : nat) (m : M W A) : Prop :=
  forall s s' r, m s = (s', r) ->
    session_state s' = session_state s /\
    exists evs, trace s' = trace s ++ evs /\ chats evs <= n.

(** The [key=] arguments of the text areas drawn. *)
Definition text_area_keys (evs : list Event) : list str :=
  flat_map (fun ev => match ev with EvTextArea _ k _ => [k] | _ => [] end) evs.

(** What the comparison draws for the entries [items]. *)
Definition comparison_drawn (layout_option : str) (items : pymap pyval) : list Event :=
  if str_eqb layout_option (lit "Vertical") then flat_map drawn_vertical items
  else match items with
       | [] => [EvWarning (lit "No engines selected for comparison.")]
       | _ :: _ => flat_map drawn_column (combine items (seq 0 (List.length items)))
       end.

(** The labels of the catalogue [d], as the options of a select box. *)
Definition labels (d : pydict) : list pyval := map PyStr (dict_keys d).

(** What is drawn, for engine options [options], up to and with the "Run
    Translation" button. *)
Definition drawn_before_run (options : list pyval) : list Event :=
  [ EvPageConfig (lit "wide");
    EvMarkdown Page PAGE_STYLE;
    EvSelect (Column 0) (lit "**Translation Engine**") options;
    EvSelect (Column 1) (lit "**Target Language**") (map PyStr available_languages);
    EvSubheader (Column 0) (lit "Input Source Text");
    EvTextInput (Column 0) (lit "source_text")
      (lit "Please enter or paste the text to be translated");
    EvButton (Column 0) (lit "Run Translation") ].

(** What is drawn from the result column to the "Compare" button, the
    result text area being handed [translation] as its value. *)
Definition drawn_after_run (options : list pyval) (translation : pyval) : list Event :=
  [ EvSubheader (Column 1) (lit "Translation Result");
    EvTextArea (Column 1) (lit "translated_text") translation;
    EvMarkdown Page (lit "---");
    EvSubheader Page (lit "Compare Translations with Multiple Engines");
    EvSelect Page (lit "**Select multiple engines to compare**") options;
    EvRadio Page (lit "**Comparison Layout**") [lit "Horizontal"; lit "Vertical"];
    EvButton Page (lit "Compare") ].

(** A backend that never answers with a null content. *)
Definition answers_text {W : Type} (env : Env W) : Prop :=
  (forall client request w w' completion choice others,
      chat_completions_create env client request w = (w', Ok completion) ->
      OpenAI.choices completion = choice :: others ->
      exists X, OpenAI.content (OpenAI.message choice) = PyStr X)
  /\ (forall request w w' response m c,
        ollama_chat env request w = (w', Ok response) ->
        Ollama.message response = Some m ->
        Ollama.content m = Some c ->
        exists Y, c = PyStr Y).
(** ** Tactics for concrete inputs *)

(** A concrete text is not blank. *)
Ltac not_blank := let H := fresh in intros H; vm_compute in H; discriminate H.

(** A concrete list of labels has no label twice. *)
Ltac distinct_keys :=
  vm_compute;
  repeat (apply NoDup_cons; [simpl; intuition discriminate|]);
  apply NoDup_nil.

(** ** Strings *)

Lemma str_eqb_refl (a : str) : str_eqb a a = true.
Proof.
  induction a as [|x a IH]; simpl; [reflexivity|].
  now rewrite N.eqb_refl, IH.
Qed.

Lemma str_eqb_eq (a b : str) : str_eqb a b = true <-> a = b.
Proof.
  split.
  - revert b; induction a as [|x a IH]; intros [|y b] H; simpl in H;
      try discriminate; [reflexivity|].
    apply andb_true_iff in H as [Hx Hab].
    apply N.eqb_eq in Hx. apply IH in Hab. congruence.
  - intros ->. apply str_eqb_refl.
Qed.

Lemma str_eqb_neq (a b : str) : str_eqb a b = false <-> a <> b.
Proof.
  rewrite <- str_eqb_eq. destruct (str_eqb a b); split; congruence.
Qed.

Lemma lstrip_blank (s : str) : lstrip s = [] <-> blank s.
Proof.
  unfold blank. induction s as [|c s IH]; simpl; [tauto|].
  destruct (isspace c) eqn:E; simpl; [exact IH|].
  split; discriminate.
Qed.

Lemma lstrip_head (s : str) :
  match lstrip s with [] => True | c :: _ => isspace c = false end.
Proof.
  induction s as [|c s IH]; simpl; [exact I|].
  destruct (isspace c) eqn:E; [exact IH|exact E].
Qed.

Lemma blank_app (a b : str) : blank (a ++ b) <-> blank a /\ blank b.
Proof. unfold blank. rewrite forallb_app. apply andb_true_iff. Qed.

Lemma blank_rev (s : str) : blank (rev s) <-> blank s.
Proof.
  induction s as [|c s IH]; simpl; [tauto|].
  rewrite blank_app, IH. unfold blank; simpl.
  rewrite !andb_true_iff. tauto.
Qed.

(** [text.strip()] is empty exactly when [text] is empty or holds
    whitespace only. *)
Lemma strip_blank (s : str) : strip s = [] <-> blank s.
Proof.
  unfold strip, rstrip. split.
  - intros H.
    assert (Hl : lstrip (rev (lstrip s)) = []).
    { destruct (lstrip (rev (lstrip s))) as [|c l]; [reflexivity|].
      simpl in H. destruct (rev l); discriminate. }
    apply lstrip_blank in Hl. apply (proj1 (blank_rev _)) in Hl.
    apply lstrip_blank. pose proof (lstrip_head s) as Hh.
    destruct (lstrip s) as [|c l]; [reflexivity|].
    unfold blank in Hl; cbn [forallb] in Hl. rewrite Hh in Hl. discriminate.
  - intros H. apply lstrip_blank in H. now rewrite H.
Qed.

Lemma truthy_strip (s : str) : truthy (strip s) = false <-> blank s.
Proof.
  rewrite <- strip_blank. destruct (strip s); simpl; split; congruence.
Qed.

Lemma truthy_strip_true (s : str) : truthy (strip s) = true <-> ~ blank s.
Proof.
  rewrite <- truthy_strip. destruct (truthy (strip s)); split; congruence.
Qed.

Lemma split_from_head (sep : N) (s cur : str) :
  exists pieces,
    split_from sep cur s = (rev cur ++ before_first sep s) :: pieces.
Proof.
  revert cur; induction s as [|c s IH]; intros cur; simpl.
  - exists []. now rewrite app_nil_r.
  - destruct (N.eqb c sep).
    + eexists. now rewrite app_nil_r.
    + destruct (IH (c :: cur)) as [pieces ->]. exists pieces.
      simpl. now rewrite <- app_assoc.
Qed.

(** [label.split("/")[0]] never raises and is the part before the first
    separator. *)
Lemma split_index0 (sep : N) (label : str) :
  index0 (split sep label) = Ok (before_first sep label).
Proof.
  unfold split. destruct (split_from_head sep label []) as [pieces ->].
  reflexivity.
Qed.

Lemma before_first_spec (sep : N) (label : str) :
  ~ In sep (before_first sep label) /\
  (before_first sep label = label \/
   exists rest, label = before_first sep label ++ sep :: rest).
Proof.
  induction label as [|c l [IHn IHs]]; simpl.
  - split; [tauto|now left].
  - destruct (N.eqb c sep) eqn:E.
    + apply N.eqb_eq in E; subst c. split; [simpl; tauto|].
      right. now exists l.
    + apply N.eqb_neq in E. split.
      * simpl. intros [H|H]; [congruence|tauto].
      * destruct IHs as [H|[rest H]].
        -- left. now rewrite H.
        -- right. exists rest. simpl. now rewrite <- H.
Qed.

Lemma before_first_unique (sep : N) (p rest : str) :
  ~ In sep p -> before_first sep (p ++ sep :: rest) = p.
Proof.
  induction p as [|c p IH]; simpl; intros H.
  - now rewrite N.eqb_refl.
  - destruct (N.eqb c sep) eqn:E.
    + apply N.eqb_eq in E. tauto.
    + rewrite IH; tauto.
Qed.

Lemma before_first_no_sep (sep : N) (label : str) :
  ~ In sep label -> before_first sep label = label.
Proof.
  induction label as [|c l IH]; simpl; intros H; [reflexivity|].
  destruct (N.eqb c sep) eqn:E.
  - apply N.eqb_eq in E. tauto.
  - rewrite IH; tauto.
Qed.

(** ** Dictionaries *)

Lemma dict_get_In (V : Type) (d : pymap V) (k : str) (v : V) :
  dict_get d k = Some v -> In (k, v) d.
Proof.
  induction d as [|[k' v'] d IH]; simpl; [discriminate|].
  destruct (str_eqb k' k) eqn:E.
  - apply str_eqb_eq in E. intros [= ->]. left. congruence.
  - intros H. right. auto.
Qed.

Lemma dict_get_None (V : Type) (d : pymap V) (k : str) :
  dict_get d k = None <-> ~ In k (dict_keys d).
Proof.
  induction d as [|[k' v'] d IH]; simpl; [tauto|].
  destruct (str_eqb k' k) eqn:E.
  - apply str_eqb_eq in E. split; [discriminate|]. intros H. tauto.
  - apply str_eqb_neq in E. rewrite IH. tauto.
Qed.

(** In a mapping (no key twice) the lookup finds the one value stored
    under the key. *)
Lemma dict_get_NoDup (V : Type) (d : pymap V) (k : str) (v : V) :
  NoDup (dict_keys d) -> In (k, v) d -> dict_get d k = Some v.
Proof.
  induction d as [|[k' v'] d IH]; simpl; [tauto|].
  intros Hnd [H|H].
  - injection H as -> ->. now rewrite str_eqb_refl.
  - inversion Hnd as [|? ? Hni Hnd']; subst.
    destruct (str_eqb k' k) eqn:E.
    + apply str_eqb_eq in E; subst k'.
      exfalso. apply Hni. unfold dict_keys.
      change k with (fst (k, v)). now apply in_map.
    + auto.
Qed.

Lemma dict_set_keys_new (V : Type) (d : pymap V) (k : str) (v : V) :
  ~ In k (dict_keys d) -> dict_set d k v = d ++ [(k, v)].
Proof.
  induction d as [|[k' v'] d IH]; simpl; intros H; [reflexivity|].
  destruct (str_eqb k' k) eqn:E.
  - apply str_eqb_eq in E. tauto.
  - rewrite IH; tauto.
Qed.


(** Subscripting the value of a dictionary from strings to strings is the
    lookup in that dictionary. *)
Lemma entry_get_catalog (d : pydict) (k : str) :
  entry_get (map (fun kv => (PyStr (fst kv), PyStr (snd kv))) d) k
  = option_map PyStr (dict_get d k).
Proof.
  induction d as [|[k' v'] d IH]; simpl; [reflexivity|].
  destruct (str_eqb k' k); [reflexivity|exact IH].
Qed.

Lemma py_keys_catalog (d : pydict) : py_keys (catalog d) = Ok (labels d).
Proof.
  unfold py_keys, catalog, labels, dict_keys. f_equal.
  rewrite !map_map. reflexivity.
Qed.
(** ** Reasoning about runs *)

Section Properties.

Variable W : Type.
Variable env : Env W.

Lemma bind_Ok {A B : Type} (m : M W A) (k : A -> M W B) s s1 a :
  m s = (s1, Ok a) -> bind m k s = k a s1.
Proof. unfold bind. now intros ->. Qed.

Lemma bind_Raise {A B : Type} (m : M W A) (k : A -> M W B) s s1 e :
  m s = (s1, Raise e) -> bind m k s = (s1, Raise e).
Proof. unfold bind. now intros ->. Qed.

(** A handler that returns makes the whole [try] statement return. *)
Lemma try_except_returns {A : Type} (m : M W A) (h : exn -> A) s :
  exists s' a, try_except m (fun e => ret (h e)) s = (s', Ok a).
Proof.
  unfold try_except. destruct (m s) as [s' [a|e]]; unfold ret; eauto.
Qed.

(** *** Quiet actions *)

Lemma quiet_ret {A : Type} (a : A) : quiet (ret (W:=W) a).
Proof.
  intros s s' r [= <- <-]. split; [reflexivity|].
  exists []. now rewrite app_nil_r.
Qed.

Lemma quiet_raise {A : Type} (e : exn) : quiet (raise (W:=W) (A:=A) e).
Proof.
  intros s s' r [= <- <-]. split; [reflexivity|].
  exists []. now rewrite app_nil_r.
Qed.

Lemma quiet_lift {A : Type} (x : res A) : quiet (lift (W:=W) x).
Proof.
  intros s s' r [= <- <-]. split; [reflexivity|].
  exists []. now rewrite app_nil_r.
Qed.

Lemma quiet_emit (ev : Event) : is_open ev = false -> quiet (emit (W:=W) ev).
Proof.
  intros Hev s s' r [= <- <-]. split; [reflexivity|].
  exists [ev]. simpl. now rewrite Hev.
Qed.

Lemma quiet_call {A : Type} (f : W -> W * res A) : quiet (call f).
Proof.
  intros s s' r. unfold call. destruct (f (world s)) as [w' x].
  intros [= <- <-]. split; [reflexivity|].
  exists []. simpl. now rewrite app_nil_r.
Qed.

Lemma quiet_getenv (name : str) : quiet (getenv env name).
Proof.
  intros s s' r [= <- <-]. split; [reflexivity|].
  exists []. now rewrite app_nil_r.
Qed.

Lemma quiet_read_MODEL_DICT : quiet (read_MODEL_DICT (W:=W)).
Proof.
  intros s s' r. unfold read_MODEL_DICT.
  destruct (MODEL_DICT s) eqn:E; intros [= <- <-]; (split; [exact E|]);
    exists []; now rewrite app_nil_r.
Qed.

Lemma quiet_session_set (k : str) (v : pyval) : quiet (session_set (W:=W) k v).
Proof.
  intros s s' r [= <- <-]. split; [reflexivity|].
  exists []. simpl. now rewrite app_nil_r.
Qed.

Lemma quiet_session_get (k : str) (v : pyval) : quiet (session_get (W:=W) k v).
Proof.
  intros s s' r [= <- <-]. split; [reflexivity|].
  exists []. now rewrite app_nil_r.
Qed.

Lemma quiet_step {A B : Type} (m : M W A) (k : M W B) s s1 x s' r :
  quiet m -> quiet k -> m s = (s1, x) -> k s1 = (s', r) ->
  MODEL_DICT s' = MODEL_DICT s /\
  exists evs, trace s' = trace s ++ evs /\ existsb is_open evs = false.
Proof.
  intros Hm Hk E1 E2.
  apply Hm in E1 as [D1 [ev1 [T1 N1]]].
  apply Hk in E2 as [D2 [ev2 [T2 N2]]].
  split; [congruence|].
  exists (ev1 ++ ev2). rewrite T2, T1, app_assoc, existsb_app, N1, N2.
  now split.
Qed.

Lemma quiet_bind {A B : Type} (m : M W A) (k : A -> M W B) :
  quiet m -> (forall a, quiet (k a)) -> quiet (bind m k).
Proof.
  intros Hm Hk s s' r. unfold bind.
  destruct (m s) as [s1 [a|e]] eqn:E.
  - intros E2. eapply quiet_step; [exact Hm|exact (Hk a)|exact E|exact E2].
  - intros [= <- <-]. exact (Hm _ _ _ E).
Qed.

Lemma quiet_try_except {A : Type} (m : M W A) (h : exn -> M W A) :
  quiet m -> (forall e, quiet (h e)) -> quiet (try_except m h).
Proof.
  intros Hm Hh s s' r. unfold try_except.
  destruct (m s) as [s1 [a|e]] eqn:E.
  - intros [= <- <-]. exact (Hm _ _ _ E).
  - intros E2. eapply quiet_step; [exact Hm|exact (Hh e)|exact E|exact E2].
Qed.

Lemma quiet_if {A : Type} (b : bool) (m1 m2 : M W A) :
  quiet m1 -> quiet m2 -> quiet (if b then m1 else m2).
Proof. now destruct b. Qed.

Create HintDb quiet.
Hint Resolve quiet_ret quiet_raise quiet_lift quiet_call quiet_getenv
  quiet_read_MODEL_DICT quiet_session_set quiet_session_get
  quiet_bind quiet_try_except quiet_if : quiet.
Hint Extern 1 (quiet (emit _)) => (apply quiet_emit; reflexivity) : quiet.

Ltac quiet_tac :=
  repeat first
    [ progress (intros)
    | solve [auto with quiet]
    | apply quiet_bind
    | apply quiet_try_except
    | apply quiet_if
    | match goal with
      | |- quiet (match ?x with _ => _ end) => destruct x
      end ].

Lemma quiet_MODEL_DICT_getitem (engine : str) :
  quiet (MODEL_DICT_getitem env engine).
Proof. unfold MODEL_DICT_getitem. quiet_tac. Qed.

Lemma quiet_openai_translation (text engine target_lang : str) :
  quiet (openai_translation env text engine target_lang).
Proof.
  unfold openai_translation. pose proof quiet_MODEL_DICT_getitem. quiet_tac.
Qed.

Lemma quiet_ollama_translation (text engine target_lang : str) :
  quiet (ollama_translation env text engine target_lang).
Proof.
  unfold ollama_translation. pose proof quiet_MODEL_DICT_getitem. quiet_tac.
Qed.

Lemma quiet_dispatch (main_engine text engine target_lang : str) :
  quiet (dispatch env main_engine text engine target_lang).
Proof.
  unfold dispatch.
  pose proof quiet_openai_translation. pose proof quiet_ollama_translation.
  quiet_tac.
Qed.

Lemma quiet_translate_text (text engine target_lang : str) :
  quiet (translate_text env text engine target_lang).
Proof.
  unfold translate_text. pose proof quiet_dispatch. quiet_tac.
Qed.

Lemma quiet_translate_text_arg (text : str) (engine : option str) (target_lang : str) :
  quiet (translate_text_arg env text engine target_lang).
Proof.
  unfold translate_text_arg. pose proof quiet_translate_text. quiet_tac.
Qed.

Lemma quiet_compare_loop (text tgt_lang : str) (engines : list str) :
  forall acc, quiet (compare_loop env text tgt_lang engines acc).
Proof.
  induction engines as [|e rest IH]; intros acc; simpl.
  - auto with quiet.
  - apply quiet_bind; [apply quiet_translate_text|]. intros r. apply IH.
Qed.

Lemma quiet_show_vertical (items : list (str * pyval)) :
  quiet (show_vertical (W:=W) items).
Proof.
  induction items as [|[eng_name result] rest IH]; simpl; quiet_tac.
Qed.

Lemma quiet_show_columns (pairs : list ((str * pyval) * nat)) :
  quiet (show_columns (W:=W) pairs).
Proof.
  induction pairs as [|[[eng_name result] col] rest IH]; simpl; quiet_tac.
Qed.

Lemma quiet_show_comparison (layout_option : str) (compare_results : pymap pyval) :
  quiet (show_comparison (W:=W) layout_option compare_results).
Proof.
  unfold show_comparison.
  pose proof quiet_show_vertical. pose proof quiet_show_columns. quiet_tac.
Qed.

Lemma quiet_compare (text tgt_lang : str) (engines : list str) (layout_option : str) :
  quiet (compare env text tgt_lang engines layout_option).
Proof.
  unfold compare.
  pose proof quiet_compare_loop. pose proof quiet_show_comparison. quiet_tac.
Qed.

Lemma quiet_main (ui : UI) : quiet (main env ui).
Proof.
  unfold main.
  pose proof quiet_translate_text_arg. pose proof quiet_compare. quiet_tac.
Qed.

(** *** Runs of the dispatcher *)

Lemma add_trace_nil (s : State W) : add_trace s [] = s.
Proof. destruct s; unfold add_trace; simpl. now rewrite app_nil_r. Qed.

Lemma add_trace_app (s : State W) (a b : list Event) :
  add_trace (add_trace s a) b = add_trace s (a ++ b).
Proof. unfold add_trace; simpl. now rewrite app_assoc. Qed.

Lemma translate_text_blank (text engine target_lang : str) (s : State W) :
  blank text ->
  translate_text env text engine target_lang s = (s, Ok (PyStr MSG_ENTER_TEXT)).
Proof.
  intros H. unfold translate_text.
  apply truthy_strip in H. now rewrite H.
Qed.

Lemma translate_text_nonblank (text engine target_lang : str) (s : State W) :
  ~ blank text ->
  translate_text env text engine target_lang s =
  try_except (dispatch env (before_first slash engine) text engine target_lang)
             (fun e => ret (PyStr (MSG_ERROR_PREFIX ++ exc_str e))) s.
Proof.
  intros H. unfold translate_text.
  apply truthy_strip_true in H. rewrite H. cbn [negb].
  unfold bind, lift. now rewrite split_index0.
Qed.

Lemma translate_text_total (text engine target_lang : str) (s : State W) :
  exists s' r, translate_text env text engine target_lang s = (s', Ok r).
Proof.
  destruct (forallb isspace text) eqn:E.
  - exists s, (PyStr MSG_ENTER_TEXT). now apply translate_text_blank.
  - rewrite translate_text_nonblank by (unfold blank; congruence).
    apply (try_except_returns _ (fun e => PyStr (MSG_ERROR_PREFIX ++ exc_str e))).
Qed.

Lemma bind_ret_r {A : Type} (m : M W A) (s : State W) :
  bind m (fun x => ret x) s = m s.
Proof. unfold bind, ret. now destruct (m s) as [s' [a|e]]. Qed.

Lemma dispatch_openai (p text engine target_lang : str) (s : State W) :
  p = lit "OpenAI" ->
  dispatch env p text engine target_lang s =
  openai_translation env text engine target_lang s.
Proof.
  intros ->. unfold dispatch. rewrite bind_ret_r.
  now rewrite str_eqb_refl.
Qed.

Lemma dispatch_ollama (p text engine target_lang : str) (s : State W) :
  p = lit "Ollama" ->
  dispatch env p text engine target_lang s =
  ollama_translation env text engine target_lang s.
Proof.
  intros ->. unfold dispatch. rewrite bind_ret_r.
  replace (str_eqb (lit "Ollama") (lit "OpenAI")) with false by reflexivity.
  now rewrite str_eqb_refl.
Qed.

Lemma dispatch_other (p text engine target_lang : str) (s : State W) :
  p <> lit "OpenAI" -> p <> lit "Ollama" ->
  dispatch env p text engine target_lang s = (s, Ok (PyStr MSG_NO_ENGINE)).
Proof.
  intros H1 H2. unfold dispatch. rewrite bind_ret_r.
  apply str_eqb_neq in H1, H2. now rewrite H1, H2.
Qed.

Lemma translate_text_other (text engine target_lang : str) (s : State W) :
  ~ blank text ->
  before_first slash engine <> lit "OpenAI" ->
  before_first slash engine <> lit "Ollama" ->
  translate_text env text engine target_lang s = (s, Ok (PyStr MSG_NO_ENGINE)).
Proof.
  intros Hb H1 H2. rewrite translate_text_nonblank by assumption.
  unfold try_except. now rewrite dispatch_other.
Qed.

Lemma translate_text_error (text engine target_lang : str) (s s' : State W) e :
  ~ blank text ->
  dispatch env (before_first slash engine) text engine target_lang s = (s', Raise e) ->
  translate_text env text engine target_lang s =
  (s', Ok (PyStr (MSG_ERROR_PREFIX ++ exc_str e))).
Proof.
  intros Hb H. rewrite translate_text_nonblank by assumption.
  unfold try_except. now rewrite H.
Qed.

Lemma translate_text_ok (text engine target_lang : str) (s s' : State W) r :
  ~ blank text ->
  dispatch env (before_first slash engine) text engine target_lang s = (s', Ok r) ->
  translate_text env text engine target_lang s = (s', Ok r).
Proof.
  intros Hb H. rewrite translate_text_nonblank by assumption.
  unfold try_except. now rewrite H.
Qed.

Lemma MODEL_DICT_getitem_run (engine : str) (s : State W) (d : pydict) :
  MODEL_DICT s = Some (catalog d) ->
  MODEL_DICT_getitem env engine s =
  (add_trace s [EvSubscript engine],
   match dict_get d engine with
   | Some model_id => Ok (PyStr model_id)
   | None => Raise (mkExn KeyError (py_repr env engine))
   end).
Proof.
  intros H. unfold MODEL_DICT_getitem, bind, read_MODEL_DICT, emit.
  rewrite H. unfold catalog. rewrite entry_get_catalog.
  now destruct (dict_get d engine).
Qed.

(** Subscripting a value that is not a dictionary raises [TypeError]. *)
Lemma MODEL_DICT_getitem_not_dict (engine : str) (s : State W) (v : pyval) :
  MODEL_DICT s = Some v ->
  (forall entries, v <> PyDict entries) ->
  MODEL_DICT_getitem env engine s
  = (add_trace s [EvSubscript engine], Raise (subscript_error v)).
Proof.
  intros H Hv. unfold MODEL_DICT_getitem, bind, read_MODEL_DICT, emit.
  rewrite H. destruct v; try reflexivity. now destruct (Hv entries).
Qed.

(** What the Ollama arm does once the catalogue has the label. *)
Lemma ollama_translation_run (text engine target_lang : str) (s : State W)
    (d : pydict) (model_id : str) w' x :
  MODEL_DICT s = Some (catalog d) ->
  dict_get d engine = Some model_id ->
  ollama_chat env (ollama_request (PyStr model_id) text target_lang) (world s) = (w', x) ->
  snd (ollama_translation env text engine target_lang s) =
  match x with
  | Raise e => Raise e
  | Ok response =>
      match Ollama.message response with
      | None => Raise (mkExn KeyError (py_repr env (lit "message")))
      | Some m =>
          match Ollama.content m with
          | None => Raise (mkExn KeyError (py_repr env (lit "content")))
          | Some c => Ok c
          end
      end
  end.
Proof.
  intros Hd Hg Hc. unfold ollama_translation.
  unfold bind at 1. rewrite (MODEL_DICT_getitem_run engine s Hd), Hg.
  unfold bind, emit, call. cbn [world add_trace]. rewrite Hc.
  destruct x as [response|e]; [|reflexivity].
  destruct (Ollama.message response) as [m|]; [|reflexivity].
  now destruct (Ollama.content m).
Qed.

(** What the OpenAI arm does once the client is built and the catalogue
    has the label. *)
Lemma openai_translation_run (text engine target_lang : str) (s : State W)
    (d : pydict) (model_id : str) w1 client w2 x :
  OpenAI_new env (world s) = (w1, Ok client) ->
  MODEL_DICT s = Some (catalog d) ->
  dict_get d engine = Some model_id ->
  chat_completions_create env
    (mkClient (os_getenv env w1 (lit "OPENAI_API_KEY")))
    (openai_request (PyStr model_id) text target_lang) w1 = (w2, x) ->
  snd (openai_translation env text engine target_lang s) =
  match x with
  | Raise e => Raise e
  | Ok completion =>
      match index0 (OpenAI.choices completion) with
      | Raise e => Raise e
      | Ok choice => Ok (OpenAI.content (OpenAI.message choice))
      end
  end.
Proof.
  intros Hn Hd Hg Hc. unfold openai_translation.
  unfold bind at 1, emit. unfold bind at 1, call. cbn [world add_trace].
  rewrite Hn. unfold bind at 1, getenv. cbn [world].
  unfold bind at 1.
  erewrite MODEL_DICT_getitem_run by (cbn [MODEL_DICT]; exact Hd).
  rewrite Hg. unfold bind, emit, call, lift, ret. cbn [world add_trace].
  rewrite Hc. destruct x as [completion|e]; [|reflexivity].
  now destruct (index0 (OpenAI.choices completion)).
Qed.

Lemma openai_translation_no_client (text engine target_lang : str) (s : State W) w1 e :
  OpenAI_new env (world s) = (w1, Raise e) ->
  snd (openai_translation env text engine target_lang s) = Raise e.
Proof.
  intros Hn. unfold openai_translation, bind, emit, call.
  cbn [world add_trace]. now rewrite Hn.
Qed.

Lemma openai_translation_no_entry (text engine target_lang : str) (s : State W)
    (d : pydict) w1 client :
  OpenAI_new env (world s) = (w1, Ok client) ->
  MODEL_DICT s = Some (catalog d) ->
  dict_get d engine = None ->
  snd (openai_translation env text engine target_lang s) =
  Raise (mkExn KeyError (py_repr env engine)).
Proof.
  intros Hn Hd Hg. unfold openai_translation.
  unfold bind at 1, emit. unfold bind at 1, call. cbn [world add_trace].
  rewrite Hn. unfold bind at 1, getenv. cbn [world].
  unfold bind at 1.
  erewrite MODEL_DICT_getitem_run by (cbn [MODEL_DICT]; exact Hd).
  now rewrite Hg.
Qed.

Lemma ollama_translation_no_entry (text engine target_lang : str) (s : State W)
    (d : pydict) :
  MODEL_DICT s = Some (catalog d) ->
  dict_get d engine = None ->
  snd (ollama_translation env text engine target_lang s) =
  Raise (mkExn KeyError (py_repr env engine)).
Proof.
  intros Hd Hg. unfold ollama_translation.
  unfold bind at 1. rewrite (MODEL_DICT_getitem_run engine s Hd), Hg.
  reflexivity.
Qed.

(** The value returned by the dispatcher, from the value or exception of
    the [try] body. *)
Lemma translate_text_snd (text engine target_lang : str) (s : State W) :
  ~ blank text ->
  snd (translate_text env text engine target_lang s) =
  match snd (dispatch env (before_first slash engine) text engine target_lang s) with
  | Ok r => Ok r
  | Raise e => Ok (PyStr (MSG_ERROR_PREFIX ++ exc_str e))
  end.
Proof.
  intros Hb. rewrite translate_text_nonblank by assumption.
  unfold try_except.
  now destruct (dispatch env (before_first slash engine) text engine target_lang s)
    as [s' [r|e]].
Qed.

Lemma openai_label (name : str) :
  before_first slash (lit "OpenAI/" ++ name) = lit "OpenAI".
Proof.
  change (lit "OpenAI/" ++ name) with (lit "OpenAI" ++ slash :: name).
  apply before_first_unique. vm_compute. intuition discriminate.
Qed.

Lemma ollama_label (name : str) :
  before_first slash (lit "Ollama/" ++ name) = lit "Ollama".
Proof.
  change (lit "Ollama/" ++ name) with (lit "Ollama" ++ slash :: name).
  apply before_first_unique. vm_compute. intuition discriminate.
Qed.

Lemma guidance_is_no_error : ~ starts_with MSG_ERROR_PREFIX MSG_ENTER_TEXT.
Proof. intros [rest H]. vm_compute in H. discriminate. Qed.

Lemma no_engine_is_no_error : ~ starts_with MSG_ERROR_PREFIX MSG_NO_ENGINE.
Proof. intros [rest H]. vm_compute in H. discriminate. Qed.

(** *** Where a returned value comes from *)

Lemma openai_translation_ok (text engine target_lang : str) (s s' : State W) v :
  openai_translation env text engine target_lang s = (s', Ok v) ->
  exists client request w w' completion choice others,
    chat_completions_create env client request w = (w', Ok completion)
    /\ OpenAI.choices completion = choice :: others
    /\ v = OpenAI.content (OpenAI.message choice).
Proof.
  unfold openai_translation, bind, emit, call, getenv, lift, ret.
  cbn [world add_trace].
  destruct (OpenAI_new env (world s)) as [w1 [client|e]]; [|discriminate].
  cbn [world].
  match goal with |- context [MODEL_DICT_getitem env engine ?s0] =>
    destruct (MODEL_DICT_getitem env engine s0) as [s2 [model_id|e]];
      [|discriminate]
  end.
  cbn [world add_trace].
  match goal with |- context [chat_completions_create env ?c ?r ?w] =>
    destruct (chat_completions_create env c r w) as [w2 [completion|e]] eqn:Hc;
      [|discriminate]
  end.
  destruct (OpenAI.choices completion) as [|choice others] eqn:Hch;
    [discriminate|].
  cbn [index0]. intros [= _ <-].
  eexists _, _, _, _, _, _, _. split; [exact Hc|]. split; [exact Hch|reflexivity].
Qed.

Lemma ollama_translation_ok (text engine target_lang : str) (s s' : State W) v :
  ollama_translation env text engine target_lang s = (s', Ok v) ->
  exists request w w' response m,
    ollama_chat env request w = (w', Ok response)
    /\ Ollama.message response = Some m
    /\ Ollama.content m = Some v.
Proof.
  unfold ollama_translation, bind, emit, call, ret, raise.
  destruct (MODEL_DICT_getitem env engine s) as [s2 [model_id|e]];
    [|discriminate].
  cbn [world add_trace].
  match goal with |- context [ollama_chat env ?r ?w] =>
    destruct (ollama_chat env r w) as [w2 [response|e]] eqn:Hc; [|discriminate]
  end.
  destruct (Ollama.message response) as [m|] eqn:Hm; [|discriminate].
  destruct (Ollama.content m) as [c|] eqn:Hcn; [|discriminate].
  intros [= _ <-].
  eexists _, _, _, _, _. split; [exact Hc|]. split; [exact Hm|exact Hcn].
Qed.

(** With backends that never answer with a null content, the dispatcher
    hands back a string. *)
Lemma translate_text_returns_str :
  answers_text env ->
  forall text engine target_lang s,
    exists s' r, translate_text env text engine target_lang s = (s', Ok (PyStr r)).
Proof.
  intros [Hopenai Hollama] text engine target_lang s.
  destruct (forallb isspace text) eqn:Eb.
  { eexists _, _. now apply translate_text_blank. }
  assert (Hb : ~ blank text) by (unfold blank; congruence).
  rewrite translate_text_nonblank by assumption. unfold try_except.
  destruct (dispatch env (before_first slash engine) text engine target_lang s)
    as [s' [v|e]] eqn:E; [|now eexists _, _].
  unfold dispatch in E. rewrite bind_ret_r in E.
  destruct (str_eqb (before_first slash engine) (lit "OpenAI")).
  - apply openai_translation_ok in E
      as (client & request & w & w' & completion & choice & others & Hc & Hch & ->).
    destruct (Hopenai _ _ _ _ _ _ _ Hc Hch) as [X ->]. now eexists _, _.
  - destruct (str_eqb (before_first slash engine) (lit "Ollama")).
    + apply ollama_translation_ok in E
        as (request & w & w' & response & m & Hc & Hm & Hcn).
      destruct (Hollama _ _ _ _ _ _ Hc Hm Hcn) as [Y ->]. now eexists _, _.
    + injection E as <- <-. now eexists _, _.
Qed.

(** *** The dispatcher *)

(** X14: whatever the text, the engine label and the target language, a
    call of [translate_text] never raises.  When the [try] body raises an
    exception [e], the string returned is
    "Error occurred during translation: " followed by [str(e)]; this is so
    when the catalogue has no entry for the label, when the client cannot
    be built, when either backend call raises and when the response is
    malformed.  With backends that never answer with a null content, what
    is returned is always a string. *)
Theorem translate_text_absorbs_exceptions :
  (forall text engine target_lang s,
      exists s' r, translate_text env text engine target_lang s = (s', Ok r))
  /\ (forall text engine target_lang s s' e,
        ~ blank text ->
        dispatch env (before_first slash engine) text engine target_lang s
        = (s', Raise e) ->
        translate_text env text engine target_lang s
        = (s', Ok (PyStr (MSG_ERROR_PREFIX ++ exc_str e))))
  /\ (forall text engine target_lang s d,
        ~ blank text ->
        MODEL_DICT s = Some (catalog d) ->
        ~ In engine (dict_keys d) ->
        before_first slash engine = lit "Ollama"
        \/ (before_first slash engine = lit "OpenAI"
            /\ exists w1 client, OpenAI_new env (world s) = (w1, Ok client)) ->
        snd (translate_text env text engine target_lang s)
        = Ok (PyStr (MSG_ERROR_PREFIX ++ py_repr env engine)))
  /\ (forall text engine target_lang s w1 e,
        ~ blank text ->
        before_first slash engine = lit "OpenAI" ->
        OpenAI_new env (world s) = (w1, Raise e) ->
        snd (translate_text env text engine target_lang s)
        = Ok (PyStr (MSG_ERROR_PREFIX ++ exc_str e)))
  /\ (forall text engine target_lang s d model_id w1 client w2 e,
        ~ blank text ->
        before_first slash engine = lit "OpenAI" ->
        OpenAI_new env (world s) = (w1, Ok client) ->
        MODEL_DICT s = Some (catalog d) ->
        dict_get d engine = Some model_id ->
        chat_completions_create env
          (mkClient (os_getenv env w1 (lit "OPENAI_API_KEY")))
          (openai_request (PyStr model_id) text target_lang) w1 = (w2, Raise e) ->
        snd (translate_text env text engine target_lang s)
        = Ok (PyStr (MSG_ERROR_PREFIX ++ exc_str e)))
  /\ (forall text engine target_lang s d model_id w' e,
        ~ blank text ->
        before_first slash engine = lit "Ollama" ->
        MODEL_DICT s = Some (catalog d) ->
        dict_get d engine = Some model_id ->
        ollama_chat env (ollama_request (PyStr model_id) text target_lang) (world s)
        = (w', Raise e) ->
        snd (translate_text env text engine target_lang s)
        = Ok (PyStr (MSG_ERROR_PREFIX ++ exc_str e)))
  /\ (forall text engine target_lang s d model_id w1 client w2,
        ~ blank text ->
        before_first slash engine = lit "OpenAI" ->
        OpenAI_new env (world s) = (w1, Ok client) ->
        MODEL_DICT s = Some (catalog d) ->
        dict_get d engine = Some model_id ->
        chat_completions_create env
          (mkClient (os_getenv env w1 (lit "OPENAI_API_KEY")))
          (openai_request (PyStr model_id) text target_lang) w1
        = (w2, Ok (OpenAI.mkCompletion [])) ->
        snd (translate_text env text engine target_lang s)
        = Ok (PyStr (MSG_ERROR_PREFIX ++ lit "list index out of range")))
  /\ (forall text engine target_lang s d model_id w',
        ~ blank text ->
        before_first slash engine = lit "Ollama" ->
        MODEL_DICT s = Some (catalog d) ->
        dict_get d engine = Some model_id ->
        ollama_chat env (ollama_request (PyStr model_id) text target_lang) (world s)
        = (w', Ok (Ollama.mkResponse None)) ->
        snd (translate_text env text engine target_lang s)
        = Ok (PyStr (MSG_ERROR_PREFIX ++ py_repr env (lit "message"))))
  /\ (answers_text env ->
      forall text engine target_lang s,
        exists s' r,
          translate_text env text engine target_lang s = (s', Ok (PyStr r))).
Proof.
  split; [exact translate_text_total|].
  split; [intros; now apply translate_text_error|].
  split.
  { intros text engine target_lang s d Hb Hd Hk Hp.
    apply dict_get_None in Hk.
    rewrite translate_text_snd by assumption.
    destruct Hp as [Hp|[Hp (w1 & client & Hn)]]; rewrite Hp.
    - rewrite dispatch_ollama by reflexivity.
      now rewrite (ollama_translation_no_entry text engine target_lang s Hd Hk).
    - rewrite dispatch_openai by reflexivity.
      now rewrite (openai_translation_no_entry text engine target_lang s Hn Hd Hk). }
  split.
  { intros text engine target_lang s w1 e Hb Hp Hn.
    rewrite translate_text_snd, Hp, dispatch_openai by (assumption || reflexivity).
    now rewrite (openai_translation_no_client text engine target_lang s Hn). }
  split.
  { intros text engine target_lang s d model_id w1 client w2 e Hb Hp Hn Hd Hg Hc.
    rewrite translate_text_snd, Hp, dispatch_openai by (assumption || reflexivity).
    now rewrite (openai_translation_run text engine target_lang s Hn Hd Hg Hc). }
  split.
  { intros text engine target_lang s d model_id w' e Hb Hp Hd Hg Hc.
    rewrite translate_text_snd, Hp, dispatch_ollama by (assumption || reflexivity).
    now rewrite (ollama_translation_run text engine target_lang s Hd Hg Hc). }
  split.
  { intros text engine target_lang s d model_id w1 client w2 Hb Hp Hn Hd Hg Hc.
    rewrite translate_text_snd, Hp, dispatch_openai by (assumption || reflexivity).
    now rewrite (openai_translation_run text engine target_lang s Hn Hd Hg Hc). }
  split.
  { intros text engine target_lang s d model_id w' Hb Hp Hd Hg Hc.
    rewrite translate_text_snd, Hp, dispatch_ollama by (assumption || reflexivity).
    now rewrite (ollama_translation_run text engine target_lang s Hd Hg Hc). }
  exact translate_text_returns_str.
Qed.

(** C2: for every engine label and target language, [translate_text] on
    the empty string or on a string of whitespace only returns exactly
    "Please enter or paste the text to be translated."; the string is
    returned, not raised, and it is not an error string. *)
Theorem blank_text_gets_guidance :
  (forall text L T s,
      text = [] \/ blank text ->
      snd (translate_text env text L T s) = Ok (PyStr MSG_ENTER_TEXT))
  /\ MSG_ENTER_TEXT = lit "Please enter or paste the text to be translated."
  /\ ~ starts_with MSG_ERROR_PREFIX MSG_ENTER_TEXT.
Proof.
  split; [|split; [reflexivity|exact guidance_is_no_error]].
  intros text L T s H.
  assert (Hb : blank text) by (destruct H as [->|H]; [reflexivity|exact H]).
  now rewrite translate_text_blank.
Qed.

(** C3, amended: for every text that is neither empty nor made of
    whitespace only and every target language, [translate_text] with an
    engine label whose part before the first "/" is neither "OpenAI" nor
    "Ollama" (such as "Unknown/Whatever") returns exactly
    "No translation engine selected.", which is not an error string. *)
Theorem unknown_backend_gets_fixed_string :
  (forall text engine T s,
      ~ blank text ->
      before_first slash engine <> lit "OpenAI" ->
      before_first slash engine <> lit "Ollama" ->
      snd (translate_text env text engine T s) = Ok (PyStr MSG_NO_ENGINE))
  /\ (forall text T s,
        ~ blank text ->
        snd (translate_text env text (lit "Unknown/Whatever") T s) = Ok (PyStr MSG_NO_ENGINE))
  /\ MSG_NO_ENGINE = lit "No translation engine selected."
  /\ ~ starts_with MSG_ERROR_PREFIX MSG_NO_ENGINE.
Proof.
  split; [|split; [|split; [reflexivity|exact no_engine_is_no_error]]].
  - intros. now rewrite translate_text_other.
  - intros. rewrite translate_text_other; try assumption; try reflexivity;
      vm_compute; discriminate.
Qed.

(** C4, amended: for every text that is neither empty nor made of
    whitespace only and every target language, when the label
    "OpenAI/..." has an entry in the catalogue, the client is built and the
    chat-completion call returns a completion whose first choice has
    message content X, [translate_text] returns exactly X; and when the
    label "Ollama/..." has an entry in the catalogue and the chat call
    returns a response whose message has content Y, [translate_text]
    returns exactly Y. *)
Theorem translate_text_returns_backend_content :
  (forall text name T s d model_id w1 client w2 completion choice others X,
      ~ blank text ->
      MODEL_DICT s = Some (catalog d) ->
      dict_get d (lit "OpenAI/" ++ name) = Some model_id ->
      OpenAI_new env (world s) = (w1, Ok client) ->
      chat_completions_create env
        (mkClient (os_getenv env w1 (lit "OPENAI_API_KEY")))
        (openai_request (PyStr model_id) text T) w1 = (w2, Ok completion) ->
      OpenAI.choices completion = choice :: others ->
      OpenAI.content (OpenAI.message choice) = PyStr X ->
      snd (translate_text env text (lit "OpenAI/" ++ name) T s) = Ok (PyStr X))
  /\ (forall text name T s d model_id w' response m Y,
        ~ blank text ->
        MODEL_DICT s = Some (catalog d) ->
        dict_get d (lit "Ollama/" ++ name) = Some model_id ->
        ollama_chat env (ollama_request (PyStr model_id) text T) (world s)
        = (w', Ok response) ->
        Ollama.message response = Some m ->
        Ollama.content m = Some (PyStr Y) ->
        snd (translate_text env text (lit "Ollama/" ++ name) T s) = Ok (PyStr Y)).
Proof.
  split.
  - intros text name T s d model_id w1 client w2 completion choice others X
      Hb Hd Hg Hn Hc Hch HX.
    rewrite translate_text_snd, openai_label, dispatch_openai
      by (assumption || reflexivity).
    rewrite (openai_translation_run text _ T s Hn Hd Hg Hc), Hch. simpl.
    now rewrite HX.
  - intros text name T s d model_id w' response m Y Hb Hd Hg Hc Hm HY.
    rewrite translate_text_snd, ollama_label, dispatch_ollama
      by (assumption || reflexivity).
    now rewrite (ollama_translation_run text _ T s Hd Hg Hc), Hm, HY.
Qed.

(** C5: for every label present in the loaded catalogue, the lookup
    [MODEL_DICT[label]] returns the model identifier stored for it; for
    every label absent from it, the lookup raises [KeyError], a
    [LookupError]. *)
Theorem catalog_lookup :
  forall s d L,
    MODEL_DICT s = Some (catalog d) ->
    NoDup (dict_keys d) ->
    (forall model_id, In (L, model_id) d ->
       snd (MODEL_DICT_getitem env L s) = Ok (PyStr model_id))
    /\ (~ In L (dict_keys d) ->
        exists e, snd (MODEL_DICT_getitem env L s) = Raise e
                  /\ exc_class e = KeyError
                  /\ is_LookupError (exc_class e) = true).
Proof.
  intros s d L Hd Hnd. rewrite (MODEL_DICT_getitem_run L s Hd). split.
  - intros model_id Hin. simpl. now rewrite (dict_get_NoDup _ _ _ Hnd Hin).
  - intros Hni. apply dict_get_None in Hni. simpl. rewrite Hni.
    eexists. split; [reflexivity|]. now split.
Qed.

(** C6: for every engine label, [label.split("/")[0]] is the substring
    of the label before its first "/", and the dispatcher branches on
    exactly that value: it runs the OpenAI arm when it is "OpenAI", the
    Ollama arm when it is "Ollama", and neither otherwise. *)
Theorem backend_is_part_before_first_slash :
  forall label,
    index0 (split slash label) = Ok (before_first slash label)
    /\ ~ In slash (before_first slash label)
    /\ (before_first slash label = label
        \/ exists rest, label = before_first slash label ++ slash :: rest)
    /\ (forall text T s,
          ~ blank text ->
          translate_text env text label T s =
          try_except (dispatch env (before_first slash label) text label T)
                     (fun e => ret (PyStr (MSG_ERROR_PREFIX ++ exc_str e))) s)
    /\ (forall text T s,
          before_first slash label = lit "OpenAI" ->
          dispatch env (before_first slash label) text label T s
          = openai_translation env text label T s)
    /\ (forall text T s,
          before_first slash label = lit "Ollama" ->
          dispatch env (before_first slash label) text label T s
          = ollama_translation env text label T s)
    /\ (forall text T s,
          before_first slash label <> lit "OpenAI" ->
          before_first slash label <> lit "Ollama" ->
          dispatch env (before_first slash label) text label T s
          = (s, Ok (PyStr MSG_NO_ENGINE))).
Proof.
  intros label.
  split; [apply split_index0|].
  split; [apply before_first_spec|].
  split; [apply before_first_spec|].
  split; [intros; now apply translate_text_nonblank|].
  split; [intros; now apply dispatch_openai|].
  split; [intros; now apply dispatch_ollama|].
  intros; now apply dispatch_other.
Qed.

(** C9: the test on the text comes first: for every engine label (its
    backend recognised or not, in the catalogue or not), every target
    language and every state, [translate_text] on empty or
    whitespace-only text returns the guidance string and leaves the state
    as it was: nothing is added to the trace (no catalogue subscript, no
    client, no network call) and the outside world is untouched. *)
Theorem blank_text_precedes_dispatch :
  forall text L T s,
    blank text ->
    translate_text env text L T s = (s, Ok (PyStr MSG_ENTER_TEXT))
    /\ trace (fst (translate_text env text L T s)) = trace s
    /\ world (fst (translate_text env text L T s)) = world s.
Proof.
  intros text L T s H. rewrite translate_text_blank by assumption.
  now repeat split.
Qed.

(** C10, amended: taking the backend prefix never fails: for every
    label, the empty one and those without "/" included (the whole label
    is then the prefix), [label.split("/")[0]] has a value.  Whenever that
    prefix is neither "OpenAI" nor "Ollama", [translate_text] on a text
    that is neither empty nor made of whitespace only returns
    "No translation engine selected." and leaves the state as it was, so
    the catalogue is not consulted: this holds whether or not the label
    is in the catalogue, and the string is never the error string. *)
Theorem prefix_total_and_unknown_skips_catalog :
  (forall label, index0 (split slash label) = Ok (before_first slash label))
  /\ index0 (split slash []) = Ok []
  /\ (forall label, ~ In slash label -> index0 (split slash label) = Ok label)
  /\ (forall text engine T s,
        ~ blank text ->
        before_first slash engine <> lit "OpenAI" ->
        before_first slash engine <> lit "Ollama" ->
        translate_text env text engine T s = (s, Ok (PyStr MSG_NO_ENGINE)))
  /\ ~ starts_with MSG_ERROR_PREFIX MSG_NO_ENGINE.
Proof.
  split; [intros; apply split_index0|].
  split; [reflexivity|].
  split; [intros label H; now rewrite split_index0, before_first_no_sep|].
  split; [intros; now apply translate_text_other|].
  exact no_engine_is_no_error.
Qed.

(** *** The comparison of several engines *)

Lemma results_of_keys (text tgt_lang : str) (engines : list str) :
  forall s, dict_keys (fst (results_of env text tgt_lang engines s)) = engines.
Proof.
  induction engines as [|e rest IH]; intros s; simpl; [reflexivity|].
  destruct (translate_text_total text e tgt_lang s) as (s1 & r & ->).
  specialize (IH s1).
  destruct (results_of env text tgt_lang rest s1) as [l s2]. simpl in *.
  now rewrite IH.
Qed.

Lemma results_of_app (text tgt_lang : str) (pre post : list str) :
  forall s,
    results_of env text tgt_lang (pre ++ post) s =
    (fst (results_of env text tgt_lang pre s)
     ++ fst (results_of env text tgt_lang post
               (snd (results_of env text tgt_lang pre s))),
     snd (results_of env text tgt_lang post
            (snd (results_of env text tgt_lang pre s)))).
Proof.
  induction pre as [|e rest IH]; intros s; simpl.
  - now destruct (results_of env text tgt_lang post s).
  - destruct (translate_text_total text e tgt_lang s) as (s1 & r & ->).
    rewrite IH.
    now destruct (results_of env text tgt_lang rest s1) as [l s2].
Qed.

Lemma compare_loop_run (text tgt_lang : str) (engines : list str) :
  forall acc s,
    NoDup engines ->
    (forall e, In e engines -> ~ In e (dict_keys acc)) ->
    compare_loop env text tgt_lang engines acc s =
    (snd (results_of env text tgt_lang engines s),
     Ok (acc ++ fst (results_of env text tgt_lang engines s))).
Proof.
  induction engines as [|e rest IH]; intros acc s Hnd Hfresh; simpl.
  - unfold ret. now rewrite app_nil_r.
  - destruct (translate_text_total text e tgt_lang s) as (s1 & r & E).
    unfold bind. rewrite E.
    inversion Hnd as [|? ? Hni Hnd']; subst.
    rewrite dict_set_keys_new by (apply Hfresh; now left).
    rewrite IH; [| assumption |].
    + destruct (results_of env text tgt_lang rest s1) as [l s2]. simpl.
      now rewrite <- app_assoc.
    + intros e' Hin. unfold dict_keys. rewrite map_app, in_app_iff. simpl.
      intros [H|[H|[]]].
      * apply (Hfresh e'); [now right|exact H].
      * subst e'. contradiction.
Qed.

Lemma show_vertical_run (items : list (str * pyval)) :
  forall s : State W,
    show_vertical items s = (add_trace s (flat_map drawn_vertical items), Ok tt).
Proof.
  induction items as [|[eng_name result] rest IH]; intros s; simpl.
  - unfold ret. now rewrite add_trace_nil.
  - unfold bind, emit. rewrite IH, !add_trace_app. reflexivity.
Qed.

Lemma show_columns_run (pairs : list ((str * pyval) * nat)) :
  forall s : State W,
    show_columns pairs s = (add_trace s (flat_map drawn_column pairs), Ok tt).
Proof.
  induction pairs as [|[[eng_name result] col] rest IH]; intros s; simpl.
  - unfold ret. now rewrite add_trace_nil.
  - unfold bind, emit. rewrite IH, !add_trace_app. reflexivity.
Qed.

(** What the comparison draws for the entries [items]. *)
Lemma show_comparison_run (layout_option : str) (items : pymap pyval) (s : State W) :
  show_comparison layout_option items s =
  (add_trace s
     (if str_eqb layout_option (lit "Vertical") then flat_map drawn_vertical items
      else match items with
           | [] => [EvWarning (lit "No engines selected for comparison.")]
           | _ :: _ =>
               flat_map drawn_column (combine items (seq 0 (List.length items)))
           end),
   Ok tt).
Proof.
  unfold show_comparison.
  destruct (str_eqb layout_option (lit "Vertical")).
  - apply show_vertical_run.
  - destruct items as [|item rest]; [reflexivity|].
    cbn [List.length Nat.eqb]. apply show_columns_run.
Qed.


Lemma combine_seq_app {A : Type} (pre : list A) (x : A) (post : list A) :
  forall start,
    combine (pre ++ x :: post) (seq start (List.length (pre ++ x :: post)))
    = combine pre (seq start (List.length pre))
      ++ (x, start + List.length pre)
         :: combine post (seq (S (start + List.length pre)) (List.length post)).
Proof.
  induction pre as [|y pre IH]; intros start; simpl.
  - now rewrite Nat.add_0_r.
  - rewrite IH. now rewrite Nat.add_succ_r.
Qed.

(** Where the entry of an engine is drawn: in the vertical layout, in an
    expander labelled with the engine; in the horizontal layout, in the
    column of its position, under the engine's name. *)
Lemma comparison_drawn_entry (layout_option : str) (pre post : pymap pyval)
    (e : str) (r : pyval) :
  exists before after,
    comparison_drawn layout_option (pre ++ (e, r) :: post)
    = before
      ++ (if str_eqb layout_option (lit "Vertical")
          then [ EvTextArea (Expander (lit "**" ++ e ++ lit "**"))
                   (lit "compare_" ++ e) r;
                 EvWrite (Expander (lit "**" ++ e ++ lit "**")) [] ]
          else [ EvMarkdown (Column (List.length pre)) (lit "**" ++ e ++ lit "**");
                 EvTextArea (Column (List.length pre)) (lit "compare_" ++ e) r ])
      ++ after.
Proof.
  unfold comparison_drawn. destruct (str_eqb layout_option (lit "Vertical")).
  - exists (flat_map drawn_vertical pre), (flat_map drawn_vertical post).
    rewrite flat_map_app. reflexivity.
  - destruct (pre ++ (e, r) :: post) as [|item items] eqn:E.
    { now destruct pre. }
    rewrite <- E, combine_seq_app, flat_map_app.
    eexists _, _. reflexivity.
Qed.

(** C7: for every set of selected engines, given in the caller's order,
    the comparison fills a mapping whose keys are exactly those engines,
    in that order; the value stored under each engine is what
    [translate_text] returned when called with that engine (the calls
    being made one after the other, each from the state the previous ones
    left); and that value is drawn in a text area under the engine's own
    name, written between two pairs of asterisks: the label of an expander
    in the vertical layout, the heading of the column of the engine's
    position in the horizontal one.  This holds whatever the backends
    answer and in whatever state of the world the calls are made. *)
Theorem comparison_results_by_engine :
  forall text tgt_lang engines layout_option s items s1,
    NoDup engines ->
    results_of env text tgt_lang engines s = (items, s1) ->
    compare_loop env text tgt_lang engines [] s = (s1, Ok items)
    /\ dict_keys items = engines
    /\ (forall pre e post,
          engines = pre ++ e :: post ->
          exists s' r,
            translate_text env text e tgt_lang
              (snd (results_of env text tgt_lang pre s)) = (s', Ok r)
            /\ dict_get items e = Some r
            /\ nth_error items (List.length pre) = Some (e, r)
            /\ exists before after,
                 trace (fst (compare env text tgt_lang engines layout_option s))
                 = before
                   ++ (if str_eqb layout_option (lit "Vertical")
                       then [ EvTextArea (Expander (lit "**" ++ e ++ lit "**"))
                                (lit "compare_" ++ e) r;
                              EvWrite (Expander (lit "**" ++ e ++ lit "**")) [] ]
                       else [ EvMarkdown (Column (List.length pre))
                                (lit "**" ++ e ++ lit "**");
                              EvTextArea (Column (List.length pre))
                                (lit "compare_" ++ e) r ])
                   ++ after)
    /\ compare env text tgt_lang engines layout_option s =
       (add_trace s1
          (if str_eqb layout_option (lit "Vertical")
           then flat_map drawn_vertical items
           else match items with
                | [] => [EvWarning (lit "No engines selected for comparison.")]
                | _ :: _ =>
                    flat_map drawn_column
                      (combine items (seq 0 (List.length items)))
                end),
        Ok tt).
Proof.
  intros text tgt_lang engines layout_option s items s1 Hnd Hres.
  assert (Hloop : compare_loop env text tgt_lang engines [] s = (s1, Ok items)).
  { rewrite compare_loop_run by (assumption || (intros ? _ [])).
    now rewrite Hres. }
  assert (Hkeys : dict_keys items = engines).
  { pose proof (results_of_keys text tgt_lang engines s) as H.
    now rewrite Hres in H. }
  assert (Hcompare : compare env text tgt_lang engines layout_option s
                     = (add_trace s1 (comparison_drawn layout_option items), Ok tt)).
  { unfold compare, bind. rewrite Hloop. apply show_comparison_run. }
  split; [exact Hloop|]. split; [exact Hkeys|]. split; [|exact Hcompare].
  intros pre e post Heq.
  destruct (translate_text_total text e tgt_lang
              (snd (results_of env text tgt_lang pre s))) as (s' & r & E).
  exists s', r. split; [exact E|].
  assert (Hitems : items =
            fst (results_of env text tgt_lang pre s)
            ++ (e, r) :: fst (results_of env text tgt_lang post s')).
  { rewrite Heq, results_of_app in Hres. simpl in Hres. rewrite E in Hres.
    destruct (results_of env text tgt_lang post s') as [l s2].
    simpl in Hres. now injection Hres as <- _. }
  assert (Hlen : List.length (fst (results_of env text tgt_lang pre s))
                 = List.length pre).
  { rewrite <- (results_of_keys text tgt_lang pre s) at 2.
    unfold dict_keys. now rewrite length_map. }
  split; [|split].
  - apply dict_get_NoDup; [now rewrite Hkeys|].
    rewrite Hitems. apply in_elt.
  - rewrite Hitems, <- Hlen, nth_error_app2 by lia.
    now rewrite Nat.sub_diag.
  - rewrite Hcompare. cbn [fst trace add_trace]. rewrite Hitems.
    destruct (comparison_drawn_entry layout_option
                (fst (results_of env text tgt_lang pre s))
                (fst (results_of env text tgt_lang post s')) e r)
      as (before & after & ->).
    rewrite Hlen. exists (trace s1 ++ before), after.
    now rewrite <- app_assoc.
Qed.

(** *** Loading the catalogue *)

Lemma load_MODEL_DICT_from (s : State W) :
  load_MODEL_DICT env s =
  match fs_open env CONFIG_PATH (world s) with
  | (w1, Raise e) =>
      (mkState w1 (MODEL_DICT s) (session_state s) (trace s ++ [EvOpen CONFIG_PATH]),
       Raise e)
  | (w1, Ok f) =>
      match yaml_safe_load env f w1 with
      | (w2, Raise e) =>
          (mkState w2 (MODEL_DICT s) (session_state s)
             (trace s ++ [EvOpen CONFIG_PATH]), Raise e)
      | (w2, Ok d) =>
          (mkState w2 (Some d) (session_state s) (trace s ++ [EvOpen CONFIG_PATH]),
           Ok tt)
      end
  end.
Proof.
  unfold load_MODEL_DICT, bind, emit, call, bind_MODEL_DICT.
  cbn [world add_trace MODEL_DICT session_state trace].
  destruct (fs_open env CONFIG_PATH (world s)) as [w1 [f|e]]; [|reflexivity].
  cbn [world MODEL_DICT session_state trace].
  now destruct (yaml_safe_load env f w1) as [w2 [d|e]].
Qed.

Lemma load_MODEL_DICT_run (w : W) :
  load_MODEL_DICT env (initial_state w) =
  match fs_open env CONFIG_PATH w with
  | (w1, Raise e) => (mkState w1 None [] [EvOpen CONFIG_PATH], Raise e)
  | (w1, Ok f) =>
      match yaml_safe_load env f w1 with
      | (w2, Raise e) => (mkState w2 None [] [EvOpen CONFIG_PATH], Raise e)
      | (w2, Ok d) => (mkState w2 (Some d) [] [EvOpen CONFIG_PATH], Ok tt)
      end
  end.
Proof. apply load_MODEL_DICT_from. Qed.

Lemma script_run (ui : UI) (w : W) :
  script env ui (initial_state w) =
  match load_MODEL_DICT env (initial_state w) with
  | (s1, Ok _) => main env ui s1
  | (s1, Raise e) => (s1, Raise e)
  end.
Proof. reflexivity. Qed.

Lemma rerun_run (ui : UI) (s : State W) :
  rerun env ui s =
  match load_MODEL_DICT env (mkState (world s) None (session_state s) (trace s)) with
  | (s1, Ok _) => main env ui s1
  | (s1, Raise e) => (s1, Raise e)
  end.
Proof. reflexivity. Qed.

(** C8, amended: in each run of the script the configuration file is
    opened exactly once, before anything else, and the first run of a
    process is such a run.  If the file cannot be opened, or the YAML
    loader raises, the exception ends the run there: [main] is not entered
    and [MODEL_DICT] is left unbound, so there is no partial catalogue.
    Whatever the loader accepts, a mapping or not, is bound to [MODEL_DICT]
    as it is and stays so to the end of that run; [translate_text] and
    [main] never change it. *)
Theorem catalog_loaded_in_each_run :
  forall ui s,
    (exists rest,
        trace (fst (rerun env ui s)) = trace s ++ EvOpen CONFIG_PATH :: rest
        /\ existsb is_open rest = false)
    /\ (forall w, script env ui (initial_state w) = rerun env ui (initial_state w))
    /\ (forall w1 e,
          fs_open env CONFIG_PATH (world s) = (w1, Raise e) ->
          rerun env ui s
          = (mkState w1 None (session_state s) (trace s ++ [EvOpen CONFIG_PATH]),
             Raise e))
    /\ (forall w1 f w2 e,
          fs_open env CONFIG_PATH (world s) = (w1, Ok f) ->
          yaml_safe_load env f w1 = (w2, Raise e) ->
          rerun env ui s
          = (mkState w2 None (session_state s) (trace s ++ [EvOpen CONFIG_PATH]),
             Raise e))
    /\ (forall w1 f w2 v,
          fs_open env CONFIG_PATH (world s) = (w1, Ok f) ->
          yaml_safe_load env f w1 = (w2, Ok v) ->
          MODEL_DICT (fst (rerun env ui s)) = Some v)
    /\ (forall text engine target_lang s0,
          MODEL_DICT (fst (translate_text env text engine target_lang s0))
          = MODEL_DICT s0)
    /\ (forall s0, MODEL_DICT (fst (main env ui s0)) = MODEL_DICT s0).
Proof.
  intros ui s.
  assert (Hmain : forall s0, MODEL_DICT (fst (main env ui s0)) = MODEL_DICT s0
            /\ exists evs, trace (fst (main env ui s0)) = trace s0 ++ evs
                           /\ existsb is_open evs = false).
  { intros s0. destruct (main env ui s0) as [s' r] eqn:E.
    pose proof (quiet_main ui) as Q. unfold quiet in Q. exact (Q _ _ _ E). }
  split.
  { rewrite rerun_run, load_MODEL_DICT_from. cbn [world MODEL_DICT session_state trace].
    destruct (fs_open env CONFIG_PATH (world s)) as [w1 [f|e]].
    - destruct (yaml_safe_load env f w1) as [w2 [d|e]].
      + destruct (Hmain (mkState w2 (Some d) (session_state s)
                           (trace s ++ [EvOpen CONFIG_PATH])))
          as [_ (evs & -> & Hev)].
        exists evs. cbn [trace]. now rewrite <- app_assoc.
      + now exists [].
    - now exists []. }
  split; [reflexivity|].
  split.
  { intros w1 e Ho. rewrite rerun_run, load_MODEL_DICT_from.
    cbn [world MODEL_DICT session_state trace]. now rewrite Ho. }
  split.
  { intros w1 f w2 e Ho Hy. rewrite rerun_run, load_MODEL_DICT_from.
    cbn [world MODEL_DICT session_state trace]. now rewrite Ho, Hy. }
  split.
  { intros w1 f w2 d Ho Hy. rewrite rerun_run, load_MODEL_DICT_from.
    cbn [world MODEL_DICT session_state trace]. rewrite Ho, Hy.
    now rewrite (proj1 (Hmain _)). }
  split.
  { intros text engine target_lang s0.
    destruct (translate_text env text engine target_lang s0) as [s' r] eqn:E.
    pose proof (quiet_translate_text text engine target_lang) as Q.
    unfold quiet in Q. exact (proj1 (Q _ _ _ E)). }
  intros s0. exact (proj1 (Hmain s0)).
Qed.

End Properties.

(** ** The program at work on stub backends *)

Lemma xy_env_answers_text : answers_text xy_env.
Proof.
  split.
  - intros client request w w' completion choice others Hc Hch.
    injection Hc as _ <-. injection Hch as <- _. now exists (lit "X").
  - intros request w w' response m c Hc Hm Hcn.
    injection Hc as _ <-. injection Hm as <-. injection Hcn as <-.
    now exists (lit "Y").
Qed.

Lemma translate_text_absorbs_exceptions_witness :
  snd (translate_text down_env (lit "hi") (lit "Ollama/gemma-3-4b-it-gguf")
         (lit "Japanese") (loaded_state 0 stub_catalog))
  = Ok (PyStr (lit "Error occurred during translation: Connection error."))
  /\ snd (translate_text xy_env (lit "hi") (lit "OpenAI/absent")
            (lit "Japanese") (loaded_state 0 stub_catalog))
     = Ok (PyStr (lit "Error occurred during translation: 'OpenAI/absent'"))
  /\ exists s' r,
       translate_text xy_env (lit "hi") (lit "OpenAI/GPT-4o") (lit "Japanese")
         (loaded_state 0 stub_catalog) = (s', Ok (PyStr r)).
Proof.
  destruct (@translate_text_absorbs_exceptions nat down_env)
    as (_ & _ & _ & _ & _ & Hcall & _).
  destruct (@translate_text_absorbs_exceptions nat xy_env)
    as (_ & _ & Hlookup & _ & _ & _ & _ & _ & Hstr).
  split; [|split].
  - apply (Hcall (lit "hi") (lit "Ollama/gemma-3-4b-it-gguf") (lit "Japanese")
             (loaded_state 0 stub_catalog) stub_catalog (lit "gemma3:4b") 1
             connection_error); try reflexivity.
    not_blank.
  - apply (Hlookup (lit "hi") (lit "OpenAI/absent") (lit "Japanese")
             (loaded_state 0 stub_catalog) stub_catalog).
    + not_blank.
    + reflexivity.
    + vm_compute. intuition discriminate.
    + right. split; [reflexivity|]. exists 0, (mkClient None). reflexivity.
  - apply Hstr. exact xy_env_answers_text.
Defined.

Lemma blank_text_gets_guidance_witness :
  snd (translate_text xy_env [] (lit "OpenAI/GPT-4o") (lit "Japanese")
         (loaded_state 0 stub_catalog)) = Ok (PyStr MSG_ENTER_TEXT)
  /\ snd (translate_text xy_env some_whitespace (lit "Ollama/gemma-3-4b-it-gguf")
            (lit "Japanese") (loaded_state 0 stub_catalog)) = Ok (PyStr MSG_ENTER_TEXT).
Proof.
  split.
  - apply (proj1 (@blank_text_gets_guidance nat xy_env)). now left.
  - apply (proj1 (@blank_text_gets_guidance nat xy_env)). right. reflexivity.
Defined.

(** C3 as first stated fails on a text that is not empty but holds
    whitespace only: the guidance string comes back. *)
Lemma whitespace_text_unknown_backend :
  lit " " <> []
  /\ before_first slash (lit "Unknown/Whatever") = lit "Unknown"
  /\ snd (translate_text xy_env (lit " ") (lit "Unknown/Whatever") (lit "Japanese")
            (loaded_state 0 stub_catalog))
     = Ok (PyStr (lit "Please enter or paste the text to be translated."))
  /\ lit "Please enter or paste the text to be translated."
     <> lit "No translation engine selected.".
Proof.
  split; [discriminate|]. split; [reflexivity|]. split; [reflexivity|].
  discriminate.
Qed.

Lemma unknown_backend_gets_fixed_string_witness :
  snd (translate_text xy_env (lit "hi") (lit "Unknown/Whatever") (lit "Japanese")
         (loaded_state 0 stub_catalog)) = Ok (PyStr MSG_NO_ENGINE)
  /\ snd (translate_text xy_env (lit "hi") (lit "no separator") (lit "Japanese")
            (initial_state 0)) = Ok (PyStr MSG_NO_ENGINE).
Proof.
  destruct (@unknown_backend_gets_fixed_string nat xy_env) as (Hany & Hunknown & _).
  split.
  - apply Hunknown. not_blank.
  - apply Hany; [not_blank|vm_compute; discriminate|vm_compute; discriminate].
Defined.

(** C4 as first stated fails in two ways: on a text that is not empty but
    holds whitespace only, and on an "OpenAI/" or "Ollama/" label that the
    catalogue does not have. *)
Lemma stub_content_not_returned :
  lit " " <> []
  /\ snd (translate_text xy_env (lit " ") (lit "OpenAI/GPT-4o") (lit "Japanese")
            (loaded_state 0 stub_catalog))
     = Ok (PyStr (lit "Please enter or paste the text to be translated."))
  /\ lit "Please enter or paste the text to be translated." <> lit "X"
  /\ snd (translate_text xy_env (lit "hi") (lit "OpenAI/absent") (lit "Japanese")
            (loaded_state 0 stub_catalog))
     = Ok (PyStr (lit "Error occurred during translation: 'OpenAI/absent'"))
  /\ lit "Error occurred during translation: 'OpenAI/absent'" <> lit "X"
  /\ snd (translate_text xy_env (lit "hi") (lit "Ollama/absent") (lit "Japanese")
            (loaded_state 0 stub_catalog))
     = Ok (PyStr (lit "Error occurred during translation: 'Ollama/absent'"))
  /\ lit "Error occurred during translation: 'Ollama/absent'" <> lit "Y".
Proof.
  repeat split; try reflexivity; discriminate.
Qed.

Lemma translate_text_returns_backend_content_witness :
  snd (translate_text xy_env (lit "hi") (lit "OpenAI/GPT-4o") (lit "Japanese")
         (loaded_state 0 stub_catalog)) = Ok (PyStr (lit "X"))
  /\ snd (translate_text xy_env (lit "hi") (lit "Ollama/gemma-3-4b-it-gguf")
            (lit "Japanese") (loaded_state 0 stub_catalog)) = Ok (PyStr (lit "Y")).
Proof.
  destruct (@translate_text_returns_backend_content nat xy_env) as [Hopenai Hollama].
  split.
  - apply (Hopenai (lit "hi") (lit "GPT-4o") (lit "Japanese")
             (loaded_state 0 stub_catalog) stub_catalog (lit "gpt-4o")
             0 (mkClient None) 1 (stub_completion (lit "X"))
             (OpenAI.mkChoice (OpenAI.mkMsg (PyStr (lit "X")))) [] (lit "X"));
      try reflexivity.
    not_blank.
  - apply (Hollama (lit "hi") (lit "gemma-3-4b-it-gguf") (lit "Japanese")
             (loaded_state 0 stub_catalog) stub_catalog (lit "gemma3:4b")
             1 (stub_response (lit "Y")) (Ollama.mkMsg (Some (PyStr (lit "Y")))) (lit "Y"));
      try reflexivity.
    not_blank.
Defined.

Lemma catalog_lookup_witness :
  snd (MODEL_DICT_getitem xy_env (lit "OpenAI/GPT-4o") (loaded_state 0 stub_catalog))
  = Ok (PyStr (lit "gpt-4o"))
  /\ exists e,
       snd (MODEL_DICT_getitem xy_env (lit "OpenAI/absent")
              (loaded_state 0 stub_catalog)) = Raise e
       /\ exc_class e = KeyError
       /\ is_LookupError (exc_class e) = true.
Proof.
  assert (Hnd : NoDup (dict_keys stub_catalog)) by distinct_keys.
  split.
  - apply (proj1 (@catalog_lookup nat xy_env (loaded_state 0 stub_catalog)
                    stub_catalog (lit "OpenAI/GPT-4o") eq_refl Hnd)).
    now left.
  - apply (proj2 (@catalog_lookup nat xy_env (loaded_state 0 stub_catalog)
                    stub_catalog (lit "OpenAI/absent") eq_refl Hnd)).
    vm_compute. intuition discriminate.
Defined.

Lemma backend_is_part_before_first_slash_witness :
  index0 (split slash (lit "Ollama/gemma-3-4b-it-gguf")) = Ok (lit "Ollama")
  /\ dispatch xy_env (lit "Ollama") (lit "hi") (lit "Ollama/gemma-3-4b-it-gguf")
       (lit "Japanese") (loaded_state 0 stub_catalog)
     = ollama_translation xy_env (lit "hi") (lit "Ollama/gemma-3-4b-it-gguf")
         (lit "Japanese") (loaded_state 0 stub_catalog).
Proof.
  destruct (@backend_is_part_before_first_slash nat xy_env
              (lit "Ollama/gemma-3-4b-it-gguf"))
    as (Hsplit & _ & _ & _ & _ & Hollama & _).
  split.
  - exact Hsplit.
  - apply (Hollama (lit "hi") (lit "Japanese") (loaded_state 0 stub_catalog)).
    reflexivity.
Defined.

Lemma blank_text_precedes_dispatch_witness :
  translate_text down_env some_whitespace (lit "OpenAI/absent") (lit "Japanese")
    (initial_state 7)
  = (initial_state 7, Ok (PyStr MSG_ENTER_TEXT)).
Proof.
  apply (@blank_text_precedes_dispatch nat down_env some_whitespace
           (lit "OpenAI/absent") (lit "Japanese") (initial_state 7)).
  reflexivity.
Defined.

(** C10 as first stated fails on a text that is not empty but holds
    whitespace only, here with the empty label, which no catalogue entry
    matches: the guidance string comes back. *)
Lemma whitespace_text_empty_label :
  [9%N; 10%N] <> []
  /\ before_first slash [] = []
  /\ dict_get stub_catalog [] = None
  /\ snd (translate_text xy_env [9%N; 10%N] [] (lit "Japanese")
            (loaded_state 0 stub_catalog))
     = Ok (PyStr (lit "Please enter or paste the text to be translated."))
  /\ lit "Please enter or paste the text to be translated."
     <> lit "No translation engine selected.".
Proof.
  repeat split; try reflexivity; discriminate.
Qed.

Lemma prefix_total_and_unknown_skips_catalog_witness :
  index0 (split slash (lit "no separator")) = Ok (lit "no separator")
  /\ translate_text down_env (lit "hi") [] (lit "Japanese")
       (loaded_state 3 stub_catalog)
     = (loaded_state 3 stub_catalog, Ok (PyStr MSG_NO_ENGINE)).
Proof.
  destruct (@prefix_total_and_unknown_skips_catalog nat down_env)
    as (_ & _ & Hwhole & Hother & _).
  split.
  - apply Hwhole. vm_compute. intuition discriminate.
  - apply Hother; [not_blank|vm_compute; discriminate|vm_compute; discriminate].
Defined.

Lemma comparison_results_by_engine_witness :
  snd (compare_loop echo_env (lit "hi") (lit "Japanese")
         [ lit "Unknown/Whatever"; lit "Ollama/gemma-3-4b-it-gguf"; lit "OpenAI/GPT-4o" ]
         [] (loaded_state 0 stub_catalog))
  = Ok [ (lit "Unknown/Whatever", PyStr (lit "No translation engine selected."));
         (lit "Ollama/gemma-3-4b-it-gguf", PyStr (lit "gemma3:4b#0"));
         (lit "OpenAI/GPT-4o", PyStr (lit "gpt-4o#1")) ]
  /\ (exists s' r before after,
        translate_text echo_env (lit "hi") (lit "Ollama/gemma-3-4b-it-gguf")
          (lit "Japanese")
          (snd (results_of echo_env (lit "hi") (lit "Japanese")
                  [lit "Unknown/Whatever"] (loaded_state 0 stub_catalog)))
        = (s', Ok r)
        /\ trace (fst (compare echo_env (lit "hi") (lit "Japanese")
                         [ lit "Unknown/Whatever"; lit "Ollama/gemma-3-4b-it-gguf";
                           lit "OpenAI/GPT-4o" ]
                         (lit "Horizontal") (loaded_state 0 stub_catalog)))
           = before
             ++ [ EvMarkdown (Column 1) (lit "**Ollama/gemma-3-4b-it-gguf**");
                  EvTextArea (Column 1) (lit "compare_Ollama/gemma-3-4b-it-gguf") r ]
             ++ after).
Proof.
  set (engines := [ lit "Unknown/Whatever"; lit "Ollama/gemma-3-4b-it-gguf";
                    lit "OpenAI/GPT-4o" ]).
  set (s := loaded_state 0 stub_catalog).
  pose (run := results_of echo_env (lit "hi") (lit "Japanese") engines s).
  assert (Hnd : NoDup engines) by distinct_keys.
  assert (Hres : results_of echo_env (lit "hi") (lit "Japanese") engines s
                 = (fst run, snd run)) by (symmetry; apply surjective_pairing).
  destruct (@comparison_results_by_engine nat echo_env (lit "hi")
              (lit "Japanese") engines (lit "Horizontal") s
              (fst run) (snd run) Hnd Hres) as (Hloop & _ & Hentry & _).
  split.
  - rewrite Hloop. reflexivity.
  - destruct (Hentry [lit "Unknown/Whatever"] (lit "Ollama/gemma-3-4b-it-gguf")
                [lit "OpenAI/GPT-4o"] eq_refl)
      as (s' & r & E & _ & _ & before & after & Ht).
    exists s', r, before, after. split; [exact E|exact Ht].
Defined.

(** C8 as first stated fails in three ways.  A second run of the script in
    the same process, as every interaction with the page causes, opens the
    configuration file again, and binds the catalogue that the file holds
    by then: here another one than in the first run.  And a file that
    holds no mapping, an empty one or a list, is loaded without any
    error. *)
Lemma catalog_reloaded_and_unchecked :
  opens (trace (fst (rerun edited_env idle_ui
                       (fst (script edited_env idle_ui (initial_state 0)))))) = 2
  /\ MODEL_DICT (fst (script edited_env idle_ui (initial_state 0)))
     = Some (catalog stub_catalog)
  /\ MODEL_DICT (fst (rerun edited_env idle_ui
                        (fst (script edited_env idle_ui (initial_state 0)))))
     = Some (catalog other_catalog)
  /\ catalog stub_catalog <> catalog other_catalog
  /\ load_MODEL_DICT emptyfile_env (initial_state 0)
     = (mkState 0 (Some PyNone) [] [EvOpen CONFIG_PATH], Ok tt)
  /\ load_MODEL_DICT listfile_env (initial_state 0)
     = (mkState 0 (Some (PyList [PyStr (lit "OpenAI/GPT-4o"); PyStr (lit "Ollama/gemma")]))
          [] [EvOpen CONFIG_PATH], Ok tt).
Proof.
  repeat split; try reflexivity. discriminate.
Qed.

Lemma catalog_loaded_in_each_run_witness :
  rerun nofile_env stub_ui revisited_state
  = (mkState 1 None [(lit "translation", PyStr (lit "earlier"))] ([] ++ [EvOpen CONFIG_PATH]),
     Raise (mkExn FileNotFoundError
              (lit "[Errno 2] No such file or directory: 'configs/avail_models.yaml'")))
  /\ rerun badyaml_env stub_ui (initial_state 0)
     = (mkState 0 None [] ([] ++ [EvOpen CONFIG_PATH]),
        Raise (mkExn (LibraryError "ParserError") (lit "while parsing a flow node")))
  /\ MODEL_DICT (fst (rerun echo_env stub_ui (initial_state 0)))
     = Some (catalog stub_catalog)
  /\ MODEL_DICT (fst (rerun emptyfile_env idle_ui (initial_state 0))) = Some PyNone.
Proof.
  destruct (@catalog_loaded_in_each_run nat nofile_env stub_ui revisited_state)
    as (_ & _ & Hmissing & _).
  destruct (@catalog_loaded_in_each_run nat badyaml_env stub_ui (initial_state 0))
    as (_ & _ & _ & Hmalformed & _).
  destruct (@catalog_loaded_in_each_run nat echo_env stub_ui (initial_state 0))
    as (_ & _ & _ & _ & Hloaded & _).
  destruct (@catalog_loaded_in_each_run nat emptyfile_env idle_ui (initial_state 0))
    as (_ & _ & _ & _ & Hempty & _).
  split; [|split; [|split]].
  - apply Hmissing. reflexivity.
  - apply (Hmalformed 0 (lit "a: [")); reflexivity.
  - apply (Hloaded 0 [] 0); reflexivity.
  - apply (Hempty 0 [] 0); reflexivity.
Defined.

(** C1: on a chat completion or a chat response whose message has a null
    content, [translate_text] hands back [None] where its signature and
    its docstring promise a string. *)
Theorem translate_text_returns_None_on_null_content :
  snd (translate_text null_env (lit "hi") (lit "OpenAI/GPT-4o") (lit "Japanese")
         (loaded_state 0 stub_catalog)) = Ok PyNone
  /\ snd (translate_text null_env (lit "hi") (lit "Ollama/gemma-3-4b-it-gguf")
            (lit "Japanese") (loaded_state 0 stub_catalog)) = Ok PyNone.
Proof. split; reflexivity. Qed.

(** The two calls of the docstring, on backends that answer as it says. *)
Example docstring_openai :
  snd (translate_text
         (stub_env (fun _ _ => Ok (stub_completion [12371; 12435; 12395; 12385; 12399; 19990; 30028]%N))
                   (fun _ _ => Raise connection_error) (Ok []) (Ok (catalog stub_catalog)))
         (lit "Hello world") (lit "OpenAI/GPT-4o") (lit "Japanese")
         (loaded_state 0 stub_catalog))
  = Ok (PyStr [12371; 12435; 12395; 12385; 12399; 19990; 30028]%N).
Proof. reflexivity. Qed.

(** With a label listed twice the mapping keeps one entry, holding the
    result of the later call. *)
Example compare_loop_repeated_label :
  snd (compare_loop echo_env (lit "hi") (lit "Japanese")
         [ lit "OpenAI/GPT-4o"; lit "OpenAI/GPT-4o" ] [] (loaded_state 0 stub_catalog))
  = Ok [ (lit "OpenAI/GPT-4o", PyStr (lit "gpt-4o#1")) ].
Proof. reflexivity. Qed.

(** What the horizontal comparison draws for two engines. *)
Example compare_horizontal_trace :
  trace (fst (compare echo_env (lit "hi") (lit "Japanese")
                [ lit "Unknown/Whatever"; lit "Ollama/gemma-3-4b-it-gguf" ]
                (lit "Horizontal") (loaded_state 0 stub_catalog)))
  = [ EvSubscript (lit "Ollama/gemma-3-4b-it-gguf");
      EvOllamaChat (ollama_request (PyStr (lit "gemma3:4b")) (lit "hi") (lit "Japanese"));
      EvMarkdown (Column 0) (lit "**Unknown/Whatever**");
      EvTextArea (Column 0) (lit "compare_Unknown/Whatever")
        (PyStr (lit "No translation engine selected."));
      EvMarkdown (Column 1) (lit "**Ollama/gemma-3-4b-it-gguf**");
      EvTextArea (Column 1) (lit "compare_Ollama/gemma-3-4b-it-gguf")
        (PyStr (lit "gemma3:4b#0")) ].
Proof. reflexivity. Qed.
(** ** Further properties of the program *)

Section Effects.

Variable W : Type.
Variable env : Env W.

(** *** Dictionaries, continued *)

Lemma dict_get_set_same (V : Type) (d : pymap V) (k : str) (v : V) :
  dict_get (dict_set d k v) k = Some v.
Proof.
  induction d as [|[k' v'] d IH]; simpl.
  - now rewrite str_eqb_refl.
  - destruct (str_eqb k' k) eqn:E; simpl; now rewrite E.
Qed.

Lemma dict_get_set_other (V : Type) (d : pymap V) (k k' : str) (v : V) :
  k' <> k -> dict_get (dict_set d k v) k' = dict_get d k'.
Proof.
  intros Hne. induction d as [|[k0 v0] d IH]; simpl.
  - assert (E : str_eqb k k' = false) by (apply str_eqb_neq; congruence).
    now rewrite E.
  - destruct (str_eqb k0 k) eqn:E; simpl.
    + apply str_eqb_eq in E; subst k0.
      assert (E' : str_eqb k k' = false) by (apply str_eqb_neq; congruence).
      now rewrite E'.
    + now rewrite IH.
Qed.

Lemma dict_set_keys_present (V : Type) (d : pymap V) (k : str) (v : V) :
  In k (dict_keys d) -> dict_keys (dict_set d k v) = dict_keys d.
Proof.
  induction d as [|[k' v'] d IH]; simpl; [tauto|].
  destruct (str_eqb k' k) eqn:E; simpl; [reflexivity|].
  apply str_eqb_neq in E. intros [H|H]; [contradiction|].
  now rewrite IH.
Qed.

Lemma dict_set_keys (V : Type) (d : pymap V) (k : str) (v : V) :
  (In k (dict_keys d) /\ dict_keys (dict_set d k v) = dict_keys d)
  \/ (~ In k (dict_keys d) /\ dict_keys (dict_set d k v) = dict_keys d ++ [k]).
Proof.
  destruct (in_dec (list_eq_dec N.eq_dec) k (dict_keys d)) as [H|H].
  - left. split; [exact H|]. now apply dict_set_keys_present.
  - right. split; [exact H|]. rewrite dict_set_keys_new by exact H.
    unfold dict_keys. now rewrite map_app.
Qed.

(** Assignment keeps the keys of a dictionary distinct. *)
Lemma dict_set_NoDup (V : Type) (d : pymap V) (k : str) (v : V) :
  NoDup (dict_keys d) -> NoDup (dict_keys (dict_set d k v)).
Proof.
  intros Hnd. destruct (dict_set_keys d k v) as [[_ ->]|[Hni ->]]; [exact Hnd|].
  apply NoDup_app; [exact Hnd|repeat constructor; simpl; tauto|].
  intros x Hx [ <- | [ ] ]. contradiction.
Qed.

Lemma dict_set_In_keys (V : Type) (d : pymap V) (k : str) (v : V) (x : str) :
  In x (dict_keys (dict_set d k v)) <-> In x (dict_keys d) \/ x = k.
Proof.
  destruct (dict_set_keys d k v) as [[Hin E]|[Hni E]]; rewrite E.
  - split; [tauto|]. intros [H|H]; [exact H|now subst x].
  - rewrite in_app_iff. simpl. intuition congruence.
Qed.

Lemma dict_set_length (V : Type) (d : pymap V) (k : str) (v : V) :
  List.length (dict_set d k v) <= S (List.length d).
Proof.
  induction d as [|[k' v'] d IH]; simpl; [lia|].
  destruct (str_eqb k' k); simpl; lia.
Qed.

(** *** Calm actions *)

Lemma chats_app (a b : list Event) : chats (a ++ b) = chats a + chats b.
Proof. unfold chats. now rewrite filter_app, length_app. Qed.

Lemma calm_le {A : Type} (a b : nat) (m : M W A) :
  calm a m -> a <= b -> calm b m.
Proof.
  intros Hm Hle s s' r E. destruct (Hm s s' r E) as [Hs (evs & Ht & Hc)].
  split; [exact Hs|]. exists evs. split; [exact Ht|lia].
Qed.

Lemma calm_still {A : Type} (n : nat) (m : M W A) :
  (forall s, exists r, m s = (s, r)) -> calm n m.
Proof.
  intros H s s' r E. destruct (H s) as [r' E']. rewrite E' in E.
  injection E as <- _. split; [reflexivity|].
  exists []. rewrite app_nil_r. split; [reflexivity|apply Nat.le_0_l].
Qed.

Lemma calm_ret {A : Type} (n : nat) (a : A) : calm n (ret (W:=W) a).
Proof. apply calm_still. intros s. now exists (Ok a). Qed.

Lemma calm_raise {A : Type} (n : nat) (e : exn) : calm n (raise (W:=W) (A:=A) e).
Proof. apply calm_still. intros s. now exists (Raise e). Qed.

Lemma calm_lift {A : Type} (n : nat) (x : res A) : calm n (lift (W:=W) x).
Proof. apply calm_still. intros s. now exists x. Qed.

Lemma calm_getenv (n : nat) (name : str) : calm n (getenv env name).
Proof. apply calm_still. intros s. now eexists. Qed.

Lemma calm_read_MODEL_DICT (n : nat) : calm n (read_MODEL_DICT (W:=W)).
Proof.
  apply calm_still. intros s. unfold read_MODEL_DICT.
  destruct (MODEL_DICT s); now eexists.
Qed.

Lemma calm_call {A : Type} (n : nat) (f : W -> W * res A) : calm n (call f).
Proof.
  intros s s' r. unfold call. destruct (f (world s)) as [w' x].
  intros [= <- <-]. split; [reflexivity|].
  exists []. simpl. rewrite app_nil_r. split; [reflexivity|apply Nat.le_0_l].
Qed.

Lemma calm_emit_other (n : nat) (ev : Event) :
  is_chat ev = false -> calm n (emit (W:=W) ev).
Proof.
  intros Hev s s' r [= <- <-]. split; [reflexivity|].
  exists [ev]. split; [reflexivity|]. unfold chats. simpl. rewrite Hev.
  apply Nat.le_0_l.
Qed.

Lemma calm_emit_chat (n : nat) (ev : Event) : calm (S n) (emit (W:=W) ev).
Proof.
  intros s s' r [= <- <-]. split; [reflexivity|].
  exists [ev]. split; [reflexivity|]. unfold chats. simpl.
  destruct (is_chat ev); simpl; lia.
Qed.

Lemma calm_step {A B : Type} (a b : nat) (m : M W A) (k : M W B) s s1 x s' r :
  calm a m -> calm b k -> m s = (s1, x) -> k s1 = (s', r) ->
  session_state s' = session_state s /\
  exists evs, trace s' = trace s ++ evs /\ chats evs <= a + b.
Proof.
  intros Hm Hk E1 E2.
  apply Hm in E1 as [S1 [ev1 [T1 N1]]].
  apply Hk in E2 as [S2 [ev2 [T2 N2]]].
  split; [congruence|].
  exists (ev1 ++ ev2). rewrite T2, T1, app_assoc, chats_app.
  split; [reflexivity|lia].
Qed.

Lemma calm_bind {A B : Type} (a b : nat) (m : M W A) (k : A -> M W B) :
  calm a m -> (forall x, calm b (k x)) -> calm (a + b) (bind m k).
Proof.
  intros Hm Hk s s' r. unfold bind.
  destruct (m s) as [s1 [x|e]] eqn:E.
  - intros E2. eapply calm_step; [exact Hm|exact (Hk x)|exact E|exact E2].
  - intros [= <- <-]. apply (calm_le Hm (Nat.le_add_r a b) _ E).
Qed.

Lemma calm_bind_first {A B : Type} (n : nat) (m : M W A) (k : A -> M W B) :
  calm n m -> (forall x, calm 0 (k x)) -> calm n (bind m k).
Proof.
  intros Hm Hk. apply (calm_le (@calm_bind _ _ _ _ _ _ Hm Hk)). lia.
Qed.

Lemma calm_bind_rest {A B : Type} (n : nat) (m : M W A) (k : A -> M W B) :
  calm 0 m -> (forall x, calm n (k x)) -> calm n (bind m k).
Proof. intros Hm Hk. exact (@calm_bind _ _ _ _ _ _ Hm Hk). Qed.

Lemma calm_try_except {A : Type} (n : nat) (m : M W A) (h : exn -> M W A) :
  calm n m -> (forall e, calm 0 (h e)) -> calm n (try_except m h).
Proof.
  intros Hm Hh s s' r. unfold try_except.
  destruct (m s) as [s1 [x|e]] eqn:E.
  - intros [= <- <-]. exact (Hm _ _ _ E).
  - intros E2.
    assert (Hstep : session_state s' = session_state s /\
                    exists evs, trace s' = trace s ++ evs /\ chats evs <= n + 0).
    { eapply calm_step; [exact Hm|exact (Hh e)|exact E|exact E2]. }
    destruct Hstep as [Hs (evs & Ht & Hc)].
    split; [exact Hs|]. exists evs. split; [exact Ht|lia].
Qed.

Lemma calm_if {A : Type} (n : nat) (b : bool) (m1 m2 : M W A) :
  calm n m1 -> calm n m2 -> calm n (if b then m1 else m2).
Proof. now destruct b. Qed.

Ltac calm_tac :=
  lazymatch goal with
  | |- calm _ (ret _) => apply calm_ret
  | |- calm _ (raise _) => apply calm_raise
  | |- calm _ (lift _) => apply calm_lift
  | |- calm _ (call _) => apply calm_call
  | |- calm _ (getenv _ _) => apply calm_getenv
  | |- calm _ read_MODEL_DICT => apply calm_read_MODEL_DICT
  | |- calm _ (emit _) =>
      first [apply calm_emit_other; reflexivity | apply calm_emit_chat]
  | |- calm _ (bind _ _) =>
      first [ apply calm_bind_rest; [solve [calm_tac] | intros; solve [calm_tac]]
            | apply calm_bind_first; [solve [calm_tac] | intros; solve [calm_tac]] ]
  | |- calm _ (try_except _ _) =>
      apply calm_try_except; [solve [calm_tac] | intros; solve [calm_tac]]
  | |- calm _ (if _ then _ else _) => apply calm_if; calm_tac
  | |- calm _ (match ?x with _ => _ end) => destruct x; calm_tac
  | |- _ =>
      match goal with
      | H : _ |- _ => solve [apply H]
      | H : _ |- _ => solve [eapply calm_le; [apply H | lia]]
      end
  end.

Lemma calm_MODEL_DICT_getitem (engine : str) :
  calm 0 (MODEL_DICT_getitem env engine).
Proof. unfold MODEL_DICT_getitem. calm_tac. Qed.

Lemma calm_openai_translation (text engine target_lang : str) :
  calm 1 (openai_translation env text engine target_lang).
Proof.
  pose proof calm_MODEL_DICT_getitem. unfold openai_translation. calm_tac.
Qed.

Lemma calm_ollama_translation (text engine target_lang : str) :
  calm 1 (ollama_translation env text engine target_lang).
Proof.
  pose proof calm_MODEL_DICT_getitem. unfold ollama_translation. calm_tac.
Qed.

Lemma calm_dispatch (main_engine text engine target_lang : str) :
  calm 1 (dispatch env main_engine text engine target_lang).
Proof.
  pose proof calm_openai_translation. pose proof calm_ollama_translation.
  unfold dispatch. calm_tac.
Qed.

Lemma calm_translate_text (text engine target_lang : str) :
  calm 1 (translate_text env text engine target_lang).
Proof.
  pose proof calm_dispatch. unfold translate_text. calm_tac.
Qed.

Lemma calm_compare_loop (text tgt_lang : str) (engines : list str) :
  forall acc, calm (List.length engines) (compare_loop env text tgt_lang engines acc).
Proof.
  induction engines as [|e rest IH]; intros acc; simpl.
  - apply calm_ret.
  - apply (calm_bind (a:=1) (b:=List.length rest)).
    + apply calm_translate_text.
    + intros r. apply IH.
Qed.

Lemma calm_show_comparison (layout_option : str) (items : pymap pyval) :
  calm 0 (show_comparison (W:=W) layout_option items).
Proof.
  intros s s' r E. rewrite show_comparison_run in E. injection E as <- _.
  split; [reflexivity|]. eexists. split; [reflexivity|].
  apply Nat.eq_le_incl. unfold chats.
  destruct (str_eqb layout_option (lit "Vertical")).
  - induction items as [|[e v] items IH]; [reflexivity|exact IH].
  - destruct items as [|item items]; [reflexivity|].
    generalize (seq 0 (List.length (item :: items))).
    generalize (item :: items). clear.
    induction l as [|[e v] l IH]; intros [|c cols]; try reflexivity.
    apply IH.
Qed.

Lemma calm_compare (text tgt_lang : str) (engines : list str) (layout_option : str) :
  calm (List.length engines) (compare env text tgt_lang engines layout_option).
Proof.
  unfold compare. apply calm_bind_first; [apply calm_compare_loop|].
  intros items. apply calm_show_comparison.
Qed.

(** *** The state the dispatcher leaves *)

Lemma translate_text_fst (text engine target_lang : str) (s : State W) :
  ~ blank text ->
  fst (translate_text env text engine target_lang s) =
  fst (dispatch env (before_first slash engine) text engine target_lang s).
Proof.
  intros Hb. rewrite translate_text_nonblank by assumption.
  unfold try_except.
  now destruct (dispatch env (before_first slash engine) text engine target_lang s)
    as [s' [r|e]].
Qed.

Lemma ollama_translation_state (text engine target_lang : str) (s : State W)
    (d : pydict) :
  MODEL_DICT s = Some (catalog d) ->
  fst (ollama_translation env text engine target_lang s) =
  match dict_get d engine with
  | None => add_trace s [EvSubscript engine]
  | Some model_id =>
      mkState
        (fst (ollama_chat env (ollama_request (PyStr model_id) text target_lang) (world s)))
        (MODEL_DICT s) (session_state s)
        (trace s ++ [EvSubscript engine;
                     EvOllamaChat (ollama_request (PyStr model_id) text target_lang)])
  end.
Proof.
  intros Hd. unfold ollama_translation.
  unfold bind at 1. rewrite (MODEL_DICT_getitem_run env engine s Hd).
  destruct (dict_get d engine) as [model_id|]; [|reflexivity].
  unfold bind, emit, call. cbn [world add_trace MODEL_DICT session_state trace].
  rewrite <- app_assoc. cbn [app].
  destruct (ollama_chat env (ollama_request (PyStr model_id) text target_lang) (world s))
    as [w' [response|e]]; [|reflexivity].
  destruct (Ollama.message response) as [m|]; [|reflexivity].
  now destruct (Ollama.content m).
Qed.

Lemma openai_translation_state (text engine target_lang : str) (s : State W)
    (d : pydict) :
  MODEL_DICT s = Some (catalog d) ->
  fst (openai_translation env text engine target_lang s) =
  match OpenAI_new env (world s) with
  | (w1, Raise _) =>
      mkState w1 (MODEL_DICT s) (session_state s) (trace s ++ [EvOpenAIClient])
  | (w1, Ok _) =>
      match dict_get d engine with
      | None =>
          mkState w1 (MODEL_DICT s) (session_state s)
            (trace s ++ [EvOpenAIClient; EvSubscript engine])
      | Some model_id =>
          mkState
            (fst (chat_completions_create env
                    (mkClient (os_getenv env w1 (lit "OPENAI_API_KEY")))
                    (openai_request (PyStr model_id) text target_lang) w1))
            (MODEL_DICT s) (session_state s)
            (trace s ++ [EvOpenAIClient; EvSubscript engine;
                         EvOpenAIChat (openai_request (PyStr model_id) text target_lang)])
      end
  end.
Proof.
  intros Hd. unfold openai_translation.
  unfold bind at 1, emit. unfold bind at 1, call. cbn [world add_trace].
  destruct (OpenAI_new env (world s)) as [w1 [client|e]]; [|reflexivity].
  unfold bind at 1, getenv. cbn [world].
  unfold bind at 1.
  erewrite MODEL_DICT_getitem_run by (cbn [MODEL_DICT]; exact Hd).
  destruct (dict_get d engine) as [model_id|].
  - unfold bind, emit, call, lift, ret, add_trace.
    cbn [world MODEL_DICT session_state trace].
    rewrite <- !app_assoc. cbn [app].
    destruct (chat_completions_create env
                (mkClient (os_getenv env w1 (lit "OPENAI_API_KEY")))
                (openai_request (PyStr model_id) text target_lang) w1)
      as [w2 [completion|e]]; [|reflexivity].
    now destruct (index0 (OpenAI.choices completion)).
  - unfold add_trace. cbn [fst world MODEL_DICT session_state trace].
    now rewrite <- app_assoc.
Qed.

(** *** The comparison, whatever is selected *)

Lemma compare_loop_total (text tgt_lang : str) (engines : list str) :
  forall acc s,
    exists s' items,
      compare_loop env text tgt_lang engines acc s = (s', Ok items)
      /\ (NoDup (dict_keys acc) -> NoDup (dict_keys items))
      /\ (forall e, In e (dict_keys items) <-> In e (dict_keys acc) \/ In e engines)
      /\ List.length items <= List.length acc + List.length engines.
Proof.
  induction engines as [|e rest IH]; intros acc s; simpl.
  - exists s, acc. repeat split; try tauto. lia.
  - destruct (translate_text_total env text e tgt_lang s) as (s1 & r & E).
    unfold bind. rewrite E.
    destruct (IH (dict_set acc e r) s1) as (s' & items & Hrun & Hnd & Hin & Hlen).
    exists s', items. split; [exact Hrun|]. split; [|split].
    + intros H. apply Hnd. now apply dict_set_NoDup.
    + intros x. rewrite Hin, dict_set_In_keys. intuition congruence.
    + pose proof (dict_set_length acc e r). lia.
Qed.

Lemma combine_seq_fst {A : Type} (l : list A) (start : nat) :
  map fst (combine l (seq start (List.length l))) = l.
Proof.
  revert start; induction l as [|x l IH]; intros start; simpl; [reflexivity|].
  now rewrite IH.
Qed.

Lemma text_area_keys_vertical (items : pymap pyval) :
  text_area_keys (flat_map drawn_vertical items)
  = map (fun k => lit "compare_" ++ k) (dict_keys items).
Proof.
  induction items as [|[e v] items IH]; simpl; [reflexivity|].
  f_equal. exact IH.
Qed.

Lemma text_area_keys_columns (pairs : list ((str * pyval) * nat)) :
  text_area_keys (flat_map drawn_column pairs)
  = map (fun k => lit "compare_" ++ k) (dict_keys (map fst pairs)).
Proof.
  induction pairs as [|[[e v] c] pairs IH]; simpl; [reflexivity|].
  f_equal. exact IH.
Qed.

Lemma text_area_keys_comparison (layout_option : str) (items : pymap pyval) :
  text_area_keys (comparison_drawn layout_option items)
  = map (fun k => lit "compare_" ++ k) (dict_keys items).
Proof.
  unfold comparison_drawn. destruct (str_eqb layout_option (lit "Vertical")).
  - apply text_area_keys_vertical.
  - destruct items as [|item items]; [reflexivity|].
    now rewrite text_area_keys_columns, combine_seq_fst.
Qed.

Lemma compare_run (text tgt_lang : str) (engines : list str) (layout_option : str)
    (s s1 : State W) (items : pymap pyval) :
  compare_loop env text tgt_lang engines [] s = (s1, Ok items) ->
  compare env text tgt_lang engines layout_option s
  = (add_trace s1 (comparison_drawn layout_option items), Ok tt).
Proof.
  intros H. unfold compare, bind. rewrite H. apply show_comparison_run.
Qed.

(** *** The page *)

Lemma main_run_not_pressed (ui : UI) (s : State W) (v : pyval) (options : list pyval) :
  MODEL_DICT s = Some v ->
  py_keys v = Ok options ->
  ui_run ui = false ->
  main env ui s =
  (if ui_compare ui then
     compare env (ui_source_text ui) (ui_tgt_lang ui) (ui_compare_engines ui)
       (ui_layout_option ui)
   else ret tt)
    (add_trace s
       (drawn_before_run options
        ++ drawn_after_run options
             (dict_get_default (session_state s) (lit "translation") (PyStr [])))).
Proof.
  intros Hd Hk Hrun. unfold main, bind, read_MODEL_DICT, emit, lift, session_get, ret.
  cbn [MODEL_DICT session_state add_trace]. rewrite Hd, Hk, Hrun.
  cbn [session_state add_trace].
  now rewrite !add_trace_app.
Qed.

Lemma main_run_pressed (ui : UI) (s s1 : State W) (v : pyval) (options : list pyval)
    (x : res pyval) :
  MODEL_DICT s = Some v ->
  py_keys v = Ok options ->
  ui_run ui = true ->
  translate_text_arg env (ui_source_text ui) (ui_engine ui) (ui_tgt_lang ui)
    (add_trace s (drawn_before_run options)) = (s1, x) ->
  main env ui s =
  match x with
  | Raise e => (s1, Raise e)
  | Ok r =>
      (if ui_compare ui then
         compare env (ui_source_text ui) (ui_tgt_lang ui) (ui_compare_engines ui)
           (ui_layout_option ui)
       else ret tt)
        (add_trace
           (mkState (world s1) (MODEL_DICT s1)
              (dict_set (session_state s1) (lit "translation") r) (trace s1))
           (drawn_after_run options r))
  end.
Proof.
  intros Hd Hk Hrun E. unfold main, bind, read_MODEL_DICT, emit, lift.
  cbn [MODEL_DICT add_trace]. rewrite Hd, Hk, Hrun.
  rewrite !add_trace_app. cbn [app].
  unfold drawn_before_run in E. rewrite E.
  destruct x as [r|e]; [|reflexivity].
  unfold session_set, session_get, ret, dict_get_default.
  cbn [session_state add_trace]. rewrite dict_get_set_same.
  now rewrite !add_trace_app.
Qed.

(** A value without [keys] stops the page after its configuration and its
    style sheet. *)
Lemma main_without_keys (ui : UI) (s : State W) (v : pyval) (e : exn) :
  MODEL_DICT s = Some v ->
  py_keys v = Raise e ->
  main env ui s
  = (add_trace s [EvPageConfig (lit "wide"); EvMarkdown Page PAGE_STYLE], Raise e).
Proof.
  intros Hd Hk. unfold main, bind, read_MODEL_DICT, emit, lift.
  cbn [MODEL_DICT add_trace]. rewrite Hd, Hk.
  now rewrite !add_trace_app.
Qed.

Lemma py_keys_not_dict (v : pyval) :
  (forall entries, v <> PyDict entries) ->
  py_keys v
  = Raise (mkExn AttributeError
             (lit "'" ++ type_name v ++ lit "' object has no attribute 'keys'")).
Proof.
  intros Hv. destruct v; try reflexivity. now destruct (Hv entries).
Qed.

Lemma calm_after_result (ui : UI) :
  calm (List.length (ui_compare_engines ui))
    (if ui_compare ui then
       compare env (ui_source_text ui) (ui_tgt_lang ui) (ui_compare_engines ui)
         (ui_layout_option ui)
     else ret tt).
Proof. apply calm_if; [apply calm_compare|apply calm_ret]. Qed.

Lemma after_result_returns (ui : UI) (s : State W) :
  exists s',
    (if ui_compare ui then
       compare env (ui_source_text ui) (ui_tgt_lang ui) (ui_compare_engines ui)
         (ui_layout_option ui)
     else ret tt) s = (s', Ok tt).
Proof.
  destruct (ui_compare ui); [|now exists s].
  destruct (compare_loop_total (ui_source_text ui) (ui_tgt_lang ui)
              (ui_compare_engines ui) [] s) as (s1 & items & Hrun & _).
  eexists. apply compare_run. exact Hrun.
Qed.

(** *** Requests sent *)

(** X1: whatever its arguments and the state it is called in, one call of
    [translate_text] sends at most one chat request. *)
Theorem translate_text_sends_at_most_one_request :
  forall text engine target_lang s,
    exists evs,
      trace (fst (translate_text env text engine target_lang s)) = trace s ++ evs
      /\ chats evs <= 1.
Proof.
  intros text engine target_lang s.
  destruct (translate_text env text engine target_lang s) as [s' r] eqn:E.
  exact (proj2 (calm_translate_text text engine target_lang s E)).
Qed.

(** X2: on a text that is not blank, with a label of a recognised backend
    that the catalogue has, [translate_text] subscripts the catalogue once
    and sends exactly one request, whatever the backend then answers: the
    request names the catalogue's model identifier for the label and
    carries the text as given, not stripped.  For OpenAI the client is
    built first. *)
Theorem recognised_label_sends_one_request :
  (forall text engine target_lang s d model_id,
      ~ blank text ->
      before_first slash engine = lit "Ollama" ->
      MODEL_DICT s = Some (catalog d) ->
      dict_get d engine = Some model_id ->
      trace (fst (translate_text env text engine target_lang s))
      = trace s ++ [EvSubscript engine;
                    EvOllamaChat (ollama_request (PyStr model_id) text target_lang)]
      /\ world (fst (translate_text env text engine target_lang s))
         = fst (ollama_chat env (ollama_request (PyStr model_id) text target_lang) (world s))
      /\ model (ollama_request (PyStr model_id) text target_lang) = PyStr model_id
      /\ exists before after,
           map content (messages (ollama_request (PyStr model_id) text target_lang))
           = [before ++ text ++ after])
  /\ (forall text engine target_lang s d model_id w1 client,
        ~ blank text ->
        before_first slash engine = lit "OpenAI" ->
        MODEL_DICT s = Some (catalog d) ->
        dict_get d engine = Some model_id ->
        OpenAI_new env (world s) = (w1, Ok client) ->
        trace (fst (translate_text env text engine target_lang s))
        = trace s ++ [EvOpenAIClient; EvSubscript engine;
                      EvOpenAIChat (openai_request (PyStr model_id) text target_lang)]
        /\ world (fst (translate_text env text engine target_lang s))
           = fst (chat_completions_create env
                    (mkClient (os_getenv env w1 (lit "OPENAI_API_KEY")))
                    (openai_request (PyStr model_id) text target_lang) w1)
        /\ model (openai_request (PyStr model_id) text target_lang) = PyStr model_id
        /\ In (mkMessage (lit "user") text)
              (messages (openai_request (PyStr model_id) text target_lang))).
Proof.
  split.
  - intros text engine target_lang s d model_id Hb Hp Hd Hg.
    rewrite translate_text_fst, Hp by assumption.
    rewrite dispatch_ollama by reflexivity.
    rewrite (ollama_translation_state text engine target_lang s Hd), Hg.
    split; [reflexivity|]. split; [reflexivity|]. split; [reflexivity|].
    exists (SYSTEM_INSTRUCTION
            ++ lit "Please translate into " ++ target_lang ++ lit "."
            ++ [10%N; 10%N] ++ lit "Source Sentence: "),
           ([10%N] ++ lit "Target Sentence: ").
    unfold ollama_request. cbn [messages map content].
    now rewrite <- !app_assoc.
  - intros text engine target_lang s d model_id w1 client Hb Hp Hd Hg Hn.
    rewrite translate_text_fst, Hp by assumption.
    rewrite dispatch_openai by reflexivity.
    rewrite (openai_translation_state text engine target_lang s Hd), Hn, Hg.
    split; [reflexivity|]. split; [reflexivity|]. split; [reflexivity|].
    right. left. reflexivity.
Qed.

(** X3: on a text that is not blank, when the catalogue has no entry for
    the label no chat request is sent: the Ollama arm stops at the
    subscript with the outside world untouched, the OpenAI arm stops at the
    subscript after building the client.  When the OpenAI client cannot be
    built, the catalogue is not even subscripted. *)
Theorem absent_label_sends_no_request :
  (forall text engine target_lang s d,
      ~ blank text ->
      before_first slash engine = lit "Ollama" ->
      MODEL_DICT s = Some (catalog d) ->
      ~ In engine (dict_keys d) ->
      fst (translate_text env text engine target_lang s)
      = add_trace s [EvSubscript engine])
  /\ (forall text engine target_lang s d w1 client,
        ~ blank text ->
        before_first slash engine = lit "OpenAI" ->
        MODEL_DICT s = Some (catalog d) ->
        ~ In engine (dict_keys d) ->
        OpenAI_new env (world s) = (w1, Ok client) ->
        fst (translate_text env text engine target_lang s)
        = mkState w1 (MODEL_DICT s) (session_state s)
            (trace s ++ [EvOpenAIClient; EvSubscript engine]))
  /\ (forall text engine target_lang s d w1 e,
        ~ blank text ->
        before_first slash engine = lit "OpenAI" ->
        MODEL_DICT s = Some (catalog d) ->
        OpenAI_new env (world s) = (w1, Raise e) ->
        fst (translate_text env text engine target_lang s)
        = mkState w1 (MODEL_DICT s) (session_state s) (trace s ++ [EvOpenAIClient])).
Proof.
  split; [|split].
  - intros text engine target_lang s d Hb Hp Hd Hk.
    apply dict_get_None in Hk.
    rewrite translate_text_fst, Hp by assumption.
    rewrite dispatch_ollama by reflexivity.
    now rewrite (ollama_translation_state text engine target_lang s Hd), Hk.
  - intros text engine target_lang s d w1 client Hb Hp Hd Hk Hn.
    apply dict_get_None in Hk.
    rewrite translate_text_fst, Hp by assumption.
    rewrite dispatch_openai by reflexivity.
    now rewrite (openai_translation_state text engine target_lang s Hd), Hn, Hk.
  - intros text engine target_lang s d w1 e Hb Hp Hd Hn.
    rewrite translate_text_fst, Hp by assumption.
    rewrite dispatch_openai by reflexivity.
    now rewrite (openai_translation_state text engine target_lang s Hd), Hn.
Qed.

(** X4: a comparison sends at most one chat request per selected engine. *)
Theorem compare_sends_at_most_one_request_per_engine :
  forall text tgt_lang engines layout_option s,
    exists evs,
      trace (fst (compare env text tgt_lang engines layout_option s)) = trace s ++ evs
      /\ chats evs <= List.length engines.
Proof.
  intros text tgt_lang engines layout_option s.
  destruct (compare env text tgt_lang engines layout_option s) as [s' r] eqn:E.
  exact (proj2 (calm_compare text tgt_lang engines layout_option s E)).
Qed.

(** X5: neither a call of [translate_text] nor a comparison changes
    [st.session_state]: the translation stored by "Run Translation" is
    still there after "Compare". *)
Theorem translating_keeps_session_state :
  (forall text engine target_lang s,
      session_state (fst (translate_text env text engine target_lang s))
      = session_state s)
  /\ (forall text tgt_lang engines layout_option s,
        session_state (fst (compare env text tgt_lang engines layout_option s))
        = session_state s).
Proof.
  split.
  - intros text engine target_lang s.
    destruct (translate_text env text engine target_lang s) as [s' r] eqn:E.
    exact (proj1 (calm_translate_text text engine target_lang s E)).
  - intros text tgt_lang engines layout_option s.
    destruct (compare env text tgt_lang engines layout_option s) as [s' r] eqn:E.
    exact (proj1 (calm_compare text tgt_lang engines layout_option s E)).
Qed.

(** *** The page, continued *)

(** *** The page, continued *)

(** X6: when "Run Translation" is pressed with an engine selected,
    [translate_text] is called for that engine once the page is drawn up
    to the button; what it returns is stored under "translation" in the
    session state, and it is the value argument of the [st.text_area] call
    for the result box, whether or not a comparison follows. *)
Theorem run_button_stores_and_shows_translation :
  forall ui s d e,
    MODEL_DICT s = Some (catalog d) ->
    ui_run ui = true ->
    ui_engine ui = Some e ->
    exists s1 r,
      translate_text env (ui_source_text ui) e (ui_tgt_lang ui)
        (add_trace s (drawn_before_run (labels d))) = (s1, Ok r)
      /\ dict_get (session_state (fst (main env ui s))) (lit "translation") = Some r
      /\ In (EvTextArea (Column 1) (lit "translated_text") r)
            (trace (fst (main env ui s))).
Proof.
  intros ui s d e Hd Hrun He.
  destruct (translate_text_total env (ui_source_text ui) e (ui_tgt_lang ui)
              (add_trace s (drawn_before_run (labels d)))) as (s1 & r & E).
  exists s1, r. split; [exact E|].
  assert (E' : translate_text_arg env (ui_source_text ui) (ui_engine ui)
                 (ui_tgt_lang ui) (add_trace s (drawn_before_run (labels d)))
               = (s1, Ok r))
    by (rewrite He; exact E).
  rewrite (@main_run_pressed ui s s1 _ _ (Ok r) Hd (py_keys_catalog d) Hrun E').
  match goal with |- context [?m (add_trace ?s2 ?evs)] =>
    destruct (m (add_trace s2 evs)) as [s' x] eqn:Et;
    destruct (calm_after_result ui _ Et) as [Hs (evs' & Ht & _)]
  end.
  cbn [fst]. split.
  - rewrite Hs. cbn [session_state add_trace]. apply dict_get_set_same.
  - rewrite Ht. cbn [trace add_trace]. rewrite !in_app_iff.
    left. right. right. now left.
Qed.

(** X7: when "Run Translation" is not pressed, [main] makes no assignment
    to the session state, and the value argument of the [st.text_area]
    call for the result box is the translation stored by an earlier run,
    or the empty string when there is none. *)
Theorem without_run_stored_translation_is_shown :
  forall ui s d,
    MODEL_DICT s = Some (catalog d) ->
    ui_run ui = false ->
    session_state (fst (main env ui s)) = session_state s
    /\ In (EvTextArea (Column 1) (lit "translated_text")
             (match dict_get (session_state s) (lit "translation") with
              | Some translation => translation
              | None => PyStr []
              end))
          (trace (fst (main env ui s))).
Proof.
  intros ui s d Hd Hrun.
  rewrite (@main_run_not_pressed ui s _ _ Hd (py_keys_catalog d) Hrun).
  match goal with |- context [?m (add_trace ?s2 ?evs)] =>
    destruct (m (add_trace s2 evs)) as [s' x] eqn:Et;
    destruct (calm_after_result ui _ Et) as [Hs (evs' & Ht & _)]
  end.
  cbn [fst]. split.
  - now rewrite Hs.
  - rewrite Ht. cbn [trace add_trace]. rewrite !in_app_iff.
    left. right. right. right. now left.
Qed.

(** X8: with the catalogue loaded, the page is drawn to the end without an
    exception whenever "Run Translation" is not pressed, or an engine is
    selected, or the text is blank: no failure of a backend or of the
    catalogue lookup gets out of [main]. *)
Theorem main_returns :
  forall ui s d,
    MODEL_DICT s = Some (catalog d) ->
    ui_run ui = false \/ ui_engine ui <> None \/ blank (ui_source_text ui) ->
    exists s', main env ui s = (s', Ok tt).
Proof.
  intros ui s d Hd Hcond.
  destruct (ui_run ui) eqn:Hrun.
  - assert (Harg : exists s1 r,
               translate_text_arg env (ui_source_text ui) (ui_engine ui)
                 (ui_tgt_lang ui) (add_trace s (drawn_before_run (labels d)))
               = (s1, Ok r)).
    { destruct (ui_engine ui) as [e|] eqn:He.
      - apply translate_text_total.
      - destruct Hcond as [H|[H|H]]; [discriminate|contradiction|].
        unfold translate_text_arg. apply truthy_strip in H. rewrite H.
        now eexists _, _. }
    destruct Harg as (s1 & r & E).
    rewrite (@main_run_pressed ui s s1 _ _ (Ok r) Hd (py_keys_catalog d) Hrun E).
    apply after_result_returns.
  - rewrite (@main_run_not_pressed ui s _ _ Hd (py_keys_catalog d) Hrun).
    apply after_result_returns.
Qed.

(** X9: the engine argument is split outside the [try] block: when the
    select box hands back [None] and "Run Translation" is pressed on a text
    that is not blank, [AttributeError] gets out of [main].  The page is
    then drawn up to the "Run Translation" button and no further: the
    result column, the comparison widgets and everything after them are
    not drawn, and nothing is stored. *)
Theorem run_without_engine_raises :
  forall ui s d,
    MODEL_DICT s = Some (catalog d) ->
    ui_run ui = true ->
    ui_engine ui = None ->
    ~ blank (ui_source_text ui) ->
    main env ui s
    = (add_trace s
         [ EvPageConfig (lit "wide");
           EvMarkdown Page PAGE_STYLE;
           EvSelect (Column 0) (lit "**Translation Engine**") (labels d);
           EvSelect (Column 1) (lit "**Target Language**")
             (map PyStr available_languages);
           EvSubheader (Column 0) (lit "Input Source Text");
           EvTextInput (Column 0) (lit "source_text")
             (lit "Please enter or paste the text to be translated");
           EvButton (Column 0) (lit "Run Translation") ],
       Raise (mkExn AttributeError (lit "'NoneType' object has no attribute 'split'"))).
Proof.
  intros ui s d Hd Hrun He Hb.
  apply truthy_strip_true in Hb.
  refine (@main_run_pressed ui s _ _ _ (Raise _) Hd (py_keys_catalog d) Hrun _).
  rewrite He. unfold translate_text_arg. now rewrite Hb.
Qed.

(** X10: a comparison with nothing selected calls no engine; the
    horizontal layout shows the warning "No engines selected for
    comparison.", the vertical layout shows nothing at all. *)
Theorem compare_nothing_selected :
  forall text tgt_lang layout_option s,
    compare env text tgt_lang [] layout_option s
    = (add_trace s
         (if str_eqb layout_option (lit "Vertical") then []
          else [EvWarning (lit "No engines selected for comparison.")]),
       Ok tt).
Proof.
  intros text tgt_lang layout_option s.
  rewrite (@compare_run text tgt_lang [] layout_option s s [] eq_refl).
  unfold comparison_drawn. now destruct (str_eqb layout_option (lit "Vertical")).
Qed.

Lemma NoDup_prefixed (p : str) (l : list str) :
  NoDup l -> NoDup (map (fun k => p ++ k) l).
Proof.
  induction 1 as [|x l Hni Hnd IH]; simpl; constructor; [|exact IH].
  intros Hin. apply in_map_iff in Hin as (y & Heq & Hy).
  apply app_inv_head in Heq. subst y. contradiction.
Qed.

(** X11: whatever is selected, also with an engine listed more than once,
    the comparison runs to the end; its mapping has exactly the selected
    engines as keys, each once, so no more entries than engines selected;
    and the text areas it draws have pairwise distinct widget keys. *)
Theorem comparison_entries_distinct :
  forall text tgt_lang engines layout_option s,
    exists s1 items,
      compare_loop env text tgt_lang engines [] s = (s1, Ok items)
      /\ NoDup (dict_keys items)
      /\ (forall e, In e (dict_keys items) <-> In e engines)
      /\ List.length items <= List.length engines
      /\ compare env text tgt_lang engines layout_option s
         = (add_trace s1 (comparison_drawn layout_option items), Ok tt)
      /\ NoDup (text_area_keys (comparison_drawn layout_option items)).
Proof.
  intros text tgt_lang engines layout_option s.
  destruct (compare_loop_total text tgt_lang engines [] s)
    as (s1 & items & Hrun & Hnd & Hin & Hlen).
  exists s1, items. split; [exact Hrun|].
  assert (Hnd' : NoDup (dict_keys items)) by (apply Hnd; constructor).
  split; [exact Hnd'|]. split; [|split; [exact Hlen|split]].
  - intros e. rewrite Hin. simpl. tauto.
  - apply compare_run. exact Hrun.
  - rewrite text_area_keys_comparison.
    apply NoDup_prefixed. exact Hnd'.
Qed.

Lemma compare_loop_app (text tgt_lang : str) (pre post : list str) :
  forall acc s,
    compare_loop env text tgt_lang (pre ++ post) acc s =
    match compare_loop env text tgt_lang pre acc s with
    | (s1, Ok acc1) => compare_loop env text tgt_lang post acc1 s1
    | (s1, Raise e) => (s1, Raise e)
    end.
Proof.
  induction pre as [|e rest IH]; intros acc s; simpl; [reflexivity|].
  unfold bind. destruct (translate_text env text e tgt_lang s) as [s1 [r|x]];
    [apply IH|reflexivity].
Qed.

Lemma compare_loop_untouched (text tgt_lang : str) (engines : list str) (k : str) :
  forall acc s s' items,
    compare_loop env text tgt_lang engines acc s = (s', Ok items) ->
    ~ In k engines ->
    dict_get items k = dict_get acc k.
Proof.
  induction engines as [|e rest IH]; intros acc s s' items; simpl.
  - now intros [= _ <-].
  - unfold bind. destruct (translate_text env text e tgt_lang s) as [s1 [r|x]];
      [|discriminate].
    intros Hrun Hni. rewrite (IH _ _ _ _ Hrun) by tauto.
    apply dict_get_set_other. intros ->. tauto.
Qed.

(** X13: in the comparison loop a later call for an engine replaces the
    result of an earlier one: the value kept under an engine is what
    [translate_text] returned at the last place the engine is listed. *)
Theorem comparison_keeps_last_result :
  forall text tgt_lang pre e post s,
    ~ In e post ->
    exists s0 acc s1 r s' items,
      compare_loop env text tgt_lang pre [] s = (s0, Ok acc)
      /\ translate_text env text e tgt_lang s0 = (s1, Ok r)
      /\ compare_loop env text tgt_lang (pre ++ e :: post) [] s = (s', Ok items)
      /\ dict_get items e = Some r.
Proof.
  intros text tgt_lang pre e post s Hni.
  destruct (compare_loop_total text tgt_lang pre [] s) as (s0 & acc & Hpre & _).
  destruct (translate_text_total env text e tgt_lang s0) as (s1 & r & E).
  destruct (compare_loop_total text tgt_lang post (dict_set acc e r) s1)
    as (s' & items & Hpost & _).
  exists s0, acc, s1, r, s', items.
  split; [exact Hpre|]. split; [exact E|]. split.
  - rewrite compare_loop_app, Hpre. simpl. unfold bind. now rewrite E.
  - erewrite compare_loop_untouched by (exact Hpost || exact Hni).
    apply dict_get_set_same.
Qed.


(** X12: when the configuration file opens and the YAML loader hands back
    a mapping from strings to strings, a run of the script reaches the end
    of the page without an exception whenever "Run Translation" is not
    pressed, or an engine is selected, or the text is blank.  When the
    loader hands back anything that is not a mapping ([None] for an empty
    file, a list, a scalar), nothing fails at the load, and [main] raises
    [AttributeError] at [MODEL_DICT.keys()], with only the page
    configuration and the style sheet done, whatever is pressed. *)
Theorem script_returns :
  forall ui w w1 f w2,
    fs_open env CONFIG_PATH w = (w1, Ok f) ->
    (forall d,
        yaml_safe_load env f w1 = (w2, Ok (catalog d)) ->
        ui_run ui = false \/ ui_engine ui <> None \/ blank (ui_source_text ui) ->
        exists s', script env ui (initial_state w) = (s', Ok tt))
    /\ (forall v,
          yaml_safe_load env f w1 = (w2, Ok v) ->
          (forall entries, v <> PyDict entries) ->
          script env ui (initial_state w)
          = (mkState w2 (Some v) []
               [ EvOpen CONFIG_PATH; EvPageConfig (lit "wide");
                 EvMarkdown Page PAGE_STYLE ],
             Raise (mkExn AttributeError
                      (lit "'" ++ type_name v ++ lit "' object has no attribute 'keys'")))).
Proof.
  intros ui w w1 f w2 Ho. split.
  - intros d Hy Hcond.
    rewrite script_run, load_MODEL_DICT_run, Ho, Hy.
    apply (@main_returns ui _ d); [reflexivity|exact Hcond].
  - intros v Hy Hv.
    rewrite script_run, load_MODEL_DICT_run, Ho, Hy.
    erewrite main_without_keys;
      [reflexivity|reflexivity|exact (py_keys_not_dict Hv)].
Qed.

End Effects.

(** ** Further runs on stub backends *)

Lemma recognised_label_sends_one_request_witness :
  trace (fst (translate_text xy_env (lit " hi ") (lit "Ollama/gemma-3-4b-it-gguf")
                (lit "Japanese") (loaded_state 0 stub_catalog)))
  = [] ++ [ EvSubscript (lit "Ollama/gemma-3-4b-it-gguf");
            EvOllamaChat (ollama_request (PyStr (lit "gemma3:4b")) (lit " hi ")
                            (lit "Japanese")) ]
  /\ trace (fst (translate_text down_env (lit "hi") (lit "OpenAI/GPT-4o")
                   (lit "Japanese") (loaded_state 0 stub_catalog)))
     = [] ++ [ EvOpenAIClient; EvSubscript (lit "OpenAI/GPT-4o");
               EvOpenAIChat (openai_request (PyStr (lit "gpt-4o")) (lit "hi")
                               (lit "Japanese")) ].
Proof.
  split.
  - apply (proj1 (@recognised_label_sends_one_request nat xy_env)
             (lit " hi ") (lit "Ollama/gemma-3-4b-it-gguf") (lit "Japanese")
             (loaded_state 0 stub_catalog) stub_catalog (lit "gemma3:4b"));
      try reflexivity.
    not_blank.
  - apply (proj2 (@recognised_label_sends_one_request nat down_env)
             (lit "hi") (lit "OpenAI/GPT-4o") (lit "Japanese")
             (loaded_state 0 stub_catalog) stub_catalog (lit "gpt-4o")
             0 (mkClient None));
      try reflexivity.
    not_blank.
Defined.

Lemma absent_label_sends_no_request_witness :
  fst (translate_text xy_env (lit "hi") (lit "Ollama/absent") (lit "Japanese")
         (loaded_state 0 stub_catalog))
  = add_trace (loaded_state 0 stub_catalog) [EvSubscript (lit "Ollama/absent")]
  /\ fst (translate_text xy_env (lit "hi") (lit "OpenAI/absent") (lit "Japanese")
            (loaded_state 0 stub_catalog))
     = mkState 0 (Some (catalog stub_catalog)) []
         ([] ++ [EvOpenAIClient; EvSubscript (lit "OpenAI/absent")]).
Proof.
  destruct (@absent_label_sends_no_request nat xy_env) as (Hollama & Hopenai & _).
  split.
  - apply (Hollama (lit "hi") (lit "Ollama/absent") (lit "Japanese")
             (loaded_state 0 stub_catalog) stub_catalog); try reflexivity.
    + not_blank.
    + vm_compute. intuition discriminate.
  - apply (Hopenai (lit "hi") (lit "OpenAI/absent") (lit "Japanese")
             (loaded_state 0 stub_catalog) stub_catalog 0 (mkClient None));
      try reflexivity.
    + not_blank.
    + vm_compute. intuition discriminate.
Defined.

Lemma run_button_stores_and_shows_translation_witness :
  exists s1 r,
    translate_text echo_env (lit "hi") (lit "OpenAI/GPT-4o") (lit "Japanese")
      (add_trace (loaded_state 0 stub_catalog)
         (drawn_before_run (labels stub_catalog)))
    = (s1, Ok r)
    /\ dict_get (session_state (fst (main echo_env stub_ui (loaded_state 0 stub_catalog))))
         (lit "translation") = Some r
    /\ In (EvTextArea (Column 1) (lit "translated_text") r)
          (trace (fst (main echo_env stub_ui (loaded_state 0 stub_catalog)))).
Proof.
  apply (@run_button_stores_and_shows_translation nat echo_env stub_ui
           (loaded_state 0 stub_catalog) stub_catalog (lit "OpenAI/GPT-4o"));
    reflexivity.
Defined.

Lemma without_run_stored_translation_is_shown_witness :
  session_state (fst (main down_env idle_ui revisited_state))
  = [(lit "translation", PyStr (lit "earlier"))]
  /\ In (EvTextArea (Column 1) (lit "translated_text") (PyStr (lit "earlier")))
        (trace (fst (main down_env idle_ui revisited_state))).
Proof.
  apply (@without_run_stored_translation_is_shown nat down_env idle_ui
           revisited_state stub_catalog); reflexivity.
Defined.

Lemma main_returns_witness :
  exists s', main down_env stub_ui (loaded_state 0 stub_catalog) = (s', Ok tt).
Proof.
  apply (@main_returns nat down_env stub_ui (loaded_state 0 stub_catalog) stub_catalog).
  - reflexivity.
  - right. left. discriminate.
Defined.

Lemma run_without_engine_raises_witness :
  main xy_env no_engine_ui (loaded_state 0 [])
  = (add_trace (loaded_state 0 [])
       [ EvPageConfig (lit "wide");
         EvMarkdown Page PAGE_STYLE;
         EvSelect (Column 0) (lit "**Translation Engine**") [];
         EvSelect (Column 1) (lit "**Target Language**")
           (map PyStr available_languages);
         EvSubheader (Column 0) (lit "Input Source Text");
         EvTextInput (Column 0) (lit "source_text")
           (lit "Please enter or paste the text to be translated");
         EvButton (Column 0) (lit "Run Translation") ],
     Raise (mkExn AttributeError (lit "'NoneType' object has no attribute 'split'"))).
Proof.
  apply (@run_without_engine_raises nat xy_env no_engine_ui (loaded_state 0 []) []);
    try reflexivity.
  not_blank.
Defined.

Lemma script_returns_witness :
  (exists s', script down_env stub_ui (initial_state 0) = (s', Ok tt))
  /\ script emptyfile_env idle_ui (initial_state 0)
     = (mkState 0 (Some PyNone) []
          [ EvOpen CONFIG_PATH; EvPageConfig (lit "wide"); EvMarkdown Page PAGE_STYLE ],
        Raise (mkExn AttributeError
                 (lit "'NoneType' object has no attribute 'keys'"))).
Proof.
  split.
  - apply (proj1 (@script_returns nat down_env stub_ui 0 0 [] 0 eq_refl) stub_catalog).
    + reflexivity.
    + right. left. discriminate.
  - apply (proj2 (@script_returns nat emptyfile_env idle_ui 0 0 [] 0 eq_refl) PyNone).
    + reflexivity.
    + discriminate.
Defined.

Lemma comparison_keeps_last_result_witness :
  exists s0 acc s1 r s' items,
    compare_loop echo_env (lit "hi") (lit "Japanese") [lit "OpenAI/GPT-4o"] []
      (loaded_state 0 stub_catalog) = (s0, Ok acc)
    /\ translate_text echo_env (lit "hi") (lit "OpenAI/GPT-4o") (lit "Japanese") s0
       = (s1, Ok r)
    /\ compare_loop echo_env (lit "hi") (lit "Japanese")
         ([lit "OpenAI/GPT-4o"] ++ lit "OpenAI/GPT-4o" :: [lit "Unknown/Whatever"]) []
         (loaded_state 0 stub_catalog) = (s', Ok items)
    /\ dict_get items (lit "OpenAI/GPT-4o") = Some r.
Proof.
  apply (@comparison_keeps_last_result nat echo_env (lit "hi") (lit "Japanese")
           [lit "OpenAI/GPT-4o"] (lit "OpenAI/GPT-4o") [lit "Unknown/Whatever"]
           (loaded_state 0 stub_catalog)).
  vm_compute. intuition discriminate.
Defined.
